(** * optuna.integration.mlflow: the MLflow callback

  A shallow embedding of [optuna/integration/mlflow.py]: the callback
  [MLflowCallback.__call__], the decorator [track_in_mlflow] and the
  helpers [_initialize_experiment], [_set_tags], [_log_metric] and
  [_log_params], over a model of the Python values they handle, of
  [textwrap.shorten] and of the tracking client they call. *)

From Stdlib Require Import Ascii Floats.SpecFloat.
From Equations Require Import Equations.
From stdpp Require Import gmap strings list fin_maps pretty.

Local Open Scope string_scope.

(** ** Exceptions and outcomes *)

(** The Python exceptions that can travel through this module. *)
Inductive exn :=
| ValueError
| KeyError
| MlflowException
| Exception (msg : string).

Global Instance exn_eq_dec : EqDecision exn.
Proof. solve_decision. Defined.

(** What evaluating a Python expression gives: a value, or a raised exception. *)
Inductive Outcome (A : Type) :=
| Ok (a : A)
| Raise (e : exn).
Arguments Ok {A} a.
Arguments Raise {A} e.

Global Instance Outcome_ret : MRet Outcome := λ A a, Ok a.
Global Instance Outcome_bind : MBind Outcome := λ A B f o,
match o with Ok a => f a | Raise e => Raise e end.

(** A left fold whose step may raise: a [for] loop over [l] updating [a]. *)
Fixpoint for_each {A B} (f : A → B → Outcome A) (a : A) (l : list B) : Outcome A :=
match l with
| [] => Ok a
| b :: l' => a' ← f a b; for_each f a' l'
end.

(** ** Python strings *)

Module Str.

(** [s[:n]] for [0 <= n]. *)
Fixpoint take (n : nat) (s : string) : string :=
  match n, s with
  | S n', String c s' => String c (take n' s')
  | _, _ => ""
  end.

(** [s[n:]] for [0 <= n]. *)
Fixpoint drop (n : nat) (s : string) : string :=
  match n, s with
  | S n', String c s' => drop n' s'
  | _, _ => s
  end.

(** [str.isspace] on one character of the ASCII range: tab, line feed,
    vertical tab, form feed, carriage return, the four separators
    0x1c-0x1f and the space. *)
Definition isspace (c : ascii) : bool :=
  let n := nat_of_ascii c in
  (((9 <=? n) && (n <=? 13)) || ((28 <=? n) && (n <=? 32)))%nat.

(** [s.lstrip()]. *)
Fixpoint lstrip (s : string) : string :=
  match s with
  | String c s' => if isspace c then lstrip s' else s
  | "" => ""
  end.

(** [s.rstrip()]. *)
Definition rstrip (s : string) : string := String.rev (lstrip (String.rev s)).

(** [s.strip()]. *)
Definition strip (s : string) : string := rstrip (lstrip s).

(** The word that starts [s] (up to the first whitespace), and the words
    after it. *)
Fixpoint split_go (s : string) : string * list string :=
  match s with
  | "" => ("", [])
  | String c s' =>
      let '(w, ws) := split_go s' in
      if isspace c then ("", if decide (w = "") then ws else w :: ws)
      else (String c w, ws)
  end.

(** [s.split()]: the maximal runs of non-whitespace characters. *)
Definition split_whitespace (s : string) : list string :=
  let '(w, ws) := split_go s in
  if decide (w = "") then ws else w :: ws.

(** [s.split(sep)] for a separator of one character. *)
Fixpoint split (sep : ascii) (s : string) : list string :=
  match s with
  | "" => [""]
  | String c s' =>
      if decide (c = sep) then "" :: split sep s'
      else match split sep s' with
           | w :: ws => String c w :: ws
           | [] => [String c ""]
           end
  end.

(** [l[-1]] on a list of strings that is not empty. *)
Definition last_item (l : list string) : string := default "" (last l).

(** [sep.join(l)]. *)
Definition join (sep : string) (l : list string) : string := String.concat sep l.

End Str.

(** ** Python values *)

(** Modelled from the spec: [optuna.trial.TrialState], which is not among
  the sources; the spec's data model names completed, failed, pruned and
  running; [WAITING] is the state of a trial that has not started.
  [is_finished] holds of the states the spec calls the finished
  variants. *)
Module TrialState.
Inductive t := RUNNING | COMPLETE | PRUNED | FAIL | WAITING.

Global Instance eq_dec : EqDecision t.
Proof. solve_decision. Defined.

Definition name (s : t) : string :=
  match s with
  | RUNNING => "RUNNING"
  | COMPLETE => "COMPLETE"
  | PRUNED => "PRUNED"
  | FAIL => "FAIL"
  | WAITING => "WAITING"
  end.

Definition is_finished (s : t) : bool :=
  negb (bool_decide (s = RUNNING)) && negb (bool_decide (s = WAITING)).
End TrialState.

(** Modelled from the spec: [optuna._study_direction.StudyDirection], which
  is not among the sources; the spec names minimize and maximize, and a
  study whose direction was never set is [NOT_SET]. *)
Module StudyDirection.
Inductive t := NOT_SET | MINIMIZE | MAXIMIZE.

Global Instance eq_dec : EqDecision t.
Proof. solve_decision. Defined.

Definition name (d : t) : string :=
  match d with
  | NOT_SET => "NOT_SET"
  | MINIMIZE => "MINIMIZE"
  | MAXIMIZE => "MAXIMIZE"
  end.
End StudyDirection.

(** The Python objects that reach the callback: attribute values are
  dynamically typed ([Dict[str, Any]]), and the state and the direction
  are tested with [isinstance] before use. A [datetime] is carried by the
  text [str] gives for it. *)
Inductive PyVal :=
| PNone
| PBool (b : bool)
| PInt (n : Z)
| PFloat (x : spec_float)
| PStr (s : string)
| PDatetime (text : string)
| PTrialState (s : TrialState.t)
| PStudyDirection (d : StudyDirection.t).

Global Instance spec_float_eq_dec : EqDecision spec_float.
Proof. solve_decision. Defined.

Global Instance PyVal_eq_dec : EqDecision PyVal.
Proof. solve_decision. Defined.

(** [isinstance(v, str)]. *)
Definition is_str (v : PyVal) : bool :=
match v with PStr _ => true | _ => false end.

(** What the interpreter and its standard library supply and this
    development does not reproduce: [float.__repr__], the shortest decimal
    text that reads back as the same float, and
    [textwrap.TextWrapper.wordsep_re.split], the regular expression that
    cuts a text into words, runs of whitespace and the parts of hyphenated
    words. Everything below holds for any two such functions. *)
Class Python := {
  float_repr : spec_float → string;
  wordsep_split : string → list string;
}.

Section PyStr.
Context {python : Python}.

(** [str(v)]. An enumeration member prints as [Class.NAME]. *)
Definition py_str (v : PyVal) : string :=
  match v with
  | PNone => "None"
  | PBool b => if b then "True" else "False"
  | PInt n => pretty n
  | PFloat x => float_repr x
  | PStr s => s
  | PDatetime text => text
  | PTrialState s => "TrialState." +:+ TrialState.name s
  | PStudyDirection d => "StudyDirection." +:+ StudyDirection.name d
  end.

End PyStr.


(** ** textwrap.shorten *)

(** Python's [textwrap.shorten(text, width)], as the standard library
    defines it: [TextWrapper(width=width, max_lines=1)] applied to the text
    with its whitespace collapsed. The wrapper's other attributes keep their
    defaults: no indent, [placeholder = ' [...]'], [drop_whitespace],
    [break_long_words], no [fix_sentence_endings], [tabsize = 8]. *)
Module textwrap.

Definition placeholder : string := " [...]".
Definition initial_indent : string := "".
Definition max_lines : nat := 1.
Definition newline : string := String "010"%char "".

(** [str.expandtabs(8)], [col] being the current column. *)
Fixpoint expandtabs (col : nat) (s : string) : string :=
  match s with
  | "" => ""
  | String c s' =>
      if decide (c = "009"%char) then
        let n := (8 - col mod 8)%nat in
        String.concat "" (replicate n " ") +:+ expandtabs (col + n) s'
      else if decide (c = "010"%char ∨ c = "013"%char) then
        String c (expandtabs 0 s')
      else String c (expandtabs (S col) s')
  end.

(** [str.translate] with the wrapper's table: each character of
    [_whitespace] becomes a space. *)
Fixpoint translate (s : string) : string :=
  match s with
  | "" => ""
  | String c s' =>
      let n := nat_of_ascii c in
      String (if ((9 <=? n) && (n <=? 13) || (n =? 32))%nat then " "%char else c)
             (translate s')
  end.

Definition _munge_whitespace (text : string) : string :=
  translate (expandtabs 0 text).

(** [sum(map(len, cur_line))]. *)
Definition total_len (l : list string) : nat := sum_list (String.length <$> l).

(** The inner [while chunks:] of [_wrap_chunks]: chunks move to the current
    line for as long as the next one fits. The head of [chunks] is the
    chunk Python finds at [chunks[-1]] after [chunks.reverse()]. *)
Fixpoint fill (width : nat) (chunks cur_line : list string) (cur_len : nat)
    : list string * list string * nat :=
  match chunks with
  | [] => ([], cur_line, cur_len)
  | c :: rest =>
      let l := String.length c in
      if (cur_len + l <=? width)%nat
      then fill width rest (cur_line ++ [c])%list (cur_len + l)
      else (chunks, cur_line, cur_len)
  end.

(** [_handle_long_word] with [break_long_words]: the next chunk is cut so
    that its first part fills the line. Called with [cur_len <= width]. *)
Definition _handle_long_word (chunks cur_line : list string) (cur_len width : nat)
    : list string * list string :=
  let space_left := if (width <? 1)%nat then 1%nat else (width - cur_len)%nat in
  match chunks with
  | c :: rest => (Str.drop space_left c :: rest, (cur_line ++ [Str.take space_left c])%list)
  | [] => (chunks, cur_line)
  end.

(** The [while cur_line:] that looks for room for the placeholder, on the
    current line read from its last chunk backwards ([rev_line] is the
    line reversed); [None] is the loop's [else]. *)
Fixpoint place (width : nat) (rev_line : list string) (cur_len : nat) : option string :=
  match rev_line with
  | [] => None
  | c :: rest =>
      if negb (bool_decide (Str.strip c = ""))
         && (cur_len + String.length placeholder <=? width)%nat
      then Some (Str.join "" (rev rev_line ++ [placeholder])%list)
      else place width rest (cur_len - String.length c)
  end.

(** How one pass of the outer [while chunks:] ends: with the loop going on,
    or at a [break]. *)
Inductive control :=
| Next (chunks lines : list string)
| Stop (lines : list string).

(** One pass of the outer [while chunks:], entered with [chunks] not empty. *)
Definition iteration (width : nat) (chunks lines : list string) : control :=
  let indent := initial_indent in
  let chunks :=
    match chunks with
    | c :: rest =>
        if bool_decide (Str.strip c = "") && negb (bool_decide (lines = []))
        then rest else chunks
    | [] => chunks
    end in
  let '(chunks, cur_line, cur_len) := fill width chunks [] 0 in
  let '(chunks, cur_line, cur_len) :=
    match chunks with
    | c :: _ =>
        if (width <? String.length c)%nat
        then let '(chunks, cur_line) := _handle_long_word chunks cur_line cur_len width in
             (chunks, cur_line, total_len cur_line)
        else (chunks, cur_line, cur_len)
    | [] => (chunks, cur_line, cur_len)
    end in
  let '(cur_line, cur_len) :=
    match last cur_line with
    | Some c =>
        if bool_decide (Str.strip c = "")
        then (removelast cur_line, (cur_len - String.length c)%nat)
        else (cur_line, cur_len)
    | None => (cur_line, cur_len)
    end in
  match cur_line with
  | [] => Next chunks lines
  | _ :: _ =>
      if (length lines + 1 <? max_lines)%nat
         || (match chunks with
             | [] => true
             | [c] => bool_decide (Str.strip c = "")
             | _ => false
             end && (cur_len <=? width)%nat)
      then Next chunks (lines ++ [indent +:+ Str.join "" cur_line])%list
      else
        match place width (rev cur_line) cur_len with
        | Some line => Stop (lines ++ [indent +:+ line])%list
        | None =>
            match last lines with
            | Some l =>
                let prev_line := Str.rstrip l in
                if (String.length prev_line + String.length placeholder <=? width)%nat
                then Stop (removelast lines ++ [prev_line +:+ placeholder])%list
                else Stop (lines ++ [indent +:+ Str.lstrip placeholder])%list
            | None => Stop (lines ++ [indent +:+ Str.lstrip placeholder])%list
            end
        end
  end.

(** The measure that the outer loop decreases: the characters left in
    [chunks], and one for each chunk. *)
Definition weight (chunks : list string) : nat :=
  sum_list ((λ c, S (String.length c)) <$> chunks).

Definition inspect {A} (a : A) : {b : A | a = b} := exist _ a eq_refl.

(** The outer [while chunks:] of [_wrap_chunks]. Each pass that does not
    [break] takes a chunk, or a part of one, off [chunks]. *)
Equations? wrap_loop (width : nat) (chunks lines : list string) : list string
    by wf (weight chunks) lt :=
  wrap_loop width [] lines := lines;
  wrap_loop width (c :: rest) lines with inspect (iteration width (c :: rest) lines) => {
    | exist _ (Next chunks' lines') Hit := wrap_loop width chunks' lines';
    | exist _ (Stop lines') _ := lines' }.
Proof.
  clear wrap_loop.
  assert (Hcons : ∀ d l, weight (d :: l) = S (String.length d + weight l)) by done.
  assert (Hdrop : ∀ n s, String.length (Str.drop n s) = (String.length s - n)%nat).
  { intros n. induction n as [|n IH]; intros [|a s]; simpl; auto. }
  assert (Hfill : ∀ chunks cl n chunks2 cl2 n2,
    fill width chunks cl n = (chunks2, cl2, n2) →
    (weight chunks2 < weight chunks)%nat
    ∨ chunks2 = chunks ∧ n2 = n
      ∧ match chunks with
        | d :: _ => (width < n + String.length d)%nat
        | [] => True
        end).
  { intros chunks. induction chunks as [|d l IH]; intros cl n chunks2 cl2 n2; simpl.
    - intros [= <- _ <-]. by right.
    - destruct (Nat.leb_spec (n + String.length d) width) as [Hfit|Hlong].
      + intros Hf. left. rewrite Hcons. apply IH in Hf as [Hlt|[-> _]]; lia.
      + intros [= <- _ <-]. by right. }
  revert Hit. unfold iteration.
  set (chunks1 := if _ && _ then rest else c :: rest).
  assert (H1 : (weight chunks1 < weight (c :: rest))%nat ∨ chunks1 = c :: rest).
  { subst chunks1. destruct (_ && _); [left; rewrite Hcons; lia | by right]. }
  destruct (fill width chunks1 [] 0) as [[chunks2 cl2] n2] eqn:Hf.
  apply Hfill in Hf.
  set (long := match chunks2 with [] => _ | _ => _ end).
  assert (H3 : ∃ chunks3 cl3 n3, long = (chunks3, cl3, n3)
            ∧ (weight chunks3 < weight (c :: rest))%nat).
  { subst long. destruct Hf as [Hlt|(-> & -> & Hstuck)].
    - assert (weight chunks2 < weight (c :: rest))%nat by (destruct H1; [lia|congruence]).
      destruct chunks2 as [|d l]; [eauto|].
      destruct (Nat.ltb_spec width (String.length d)); [|eauto].
      unfold _handle_long_word. do 3 eexists. split; [done|].
      rewrite !Hcons in *. rewrite Hdrop. lia.
    - destruct chunks1 as [|d l].
      + destruct H1 as [?|?]; [eauto|done].
      + simpl in Hstuck.
        destruct (Nat.ltb_spec width (String.length d)); [|lia].
        unfold _handle_long_word. do 3 eexists. split; [done|].
        assert (weight (Str.drop (if (width <? 1)%nat then 1 else width - 0)%nat d :: l)
                < weight (d :: l))%nat.
        { rewrite !Hcons, Hdrop. destruct (Nat.ltb_spec width 1); lia. }
        destruct H1 as [?|Heq]; [lia|by rewrite <- Heq]. }
  destruct H3 as (chunks3 & cl3 & n3 & -> & Hlt).
  destruct (match last cl3 with Some _ => _ | None => _ end) as [cl4 n4].
  destruct cl4; [intros ?; by simplify_eq|].
  destruct (_ || _); [intros ?; by simplify_eq|].
  repeat case_match; done.
Qed.

(** [TextWrapper._wrap_chunks]. *)
Definition _wrap_chunks (width : nat) (chunks : list string) : Outcome (list string) :=
  if (width <=? 0)%nat then Raise ValueError
  else if (width <? String.length initial_indent + String.length (Str.lstrip placeholder))%nat
  then Raise ValueError
  else Ok (wrap_loop width chunks []).

Section Wrapper.
Context {python : Python}.

(** [TextWrapper._split] drops the empty chunks. *)
Definition _split (text : string) : list string :=
  filter (λ c, c ≠ "") (wordsep_split text).

Definition _split_chunks (text : string) : list string :=
  _split (_munge_whitespace text).

(** [TextWrapper.wrap]. *)
Definition wrap (width : nat) (text : string) : Outcome (list string) :=
  let chunks := _split_chunks text in
  _wrap_chunks width chunks.

(** [TextWrapper.fill]. *)
Definition fill_text (width : nat) (text : string) : Outcome string :=
  lines ← wrap width text; Ok (Str.join newline lines).

(** [textwrap.shorten(text, width)]. *)
Definition shorten (text : string) (width : nat) : Outcome string :=
  fill_text width (Str.join " " (Str.split_whitespace (Str.strip text))).

End Wrapper.

End textwrap.

(** ** optuna's studies and trials *)

(** Modelled from the spec: a parameter's sampling distribution
    ([optuna.distributions.BaseDistribution], not among the sources), of
    which the callback only takes the textual description [str] gives. *)
Record BaseDistribution := { distribution_repr : string }.

(** Modelled from the spec: [optuna.trial.FrozenTrial], the finished trial
    handed to the callback, with the fields the spec's data model lists.
    [value] is the [Optional[float]] result. *)
Module FrozenTrial.
Record t := {
  number : Z;
  datetime_start : PyVal;
  datetime_complete : PyVal;
  state : PyVal;
  value : option spec_float;
  params : gmap string PyVal;
  distributions : gmap string BaseDistribution;
  user_attrs : gmap string PyVal;
  system_attrs : gmap string PyVal;
}.

(** The trial with one more system attribute. *)
Definition with_system_attr (key : string) (v : PyVal) (trial : t) : t :=
  {| number := number trial;
     datetime_start := datetime_start trial;
     datetime_complete := datetime_complete trial;
     state := state trial;
     value := value trial;
     params := params trial;
     distributions := distributions trial;
     user_attrs := user_attrs trial;
     system_attrs := <[key := v]> (system_attrs trial) |}.
End FrozenTrial.

(** Modelled from the spec: [optuna.study.Study], by its name, direction and
    user attributes. *)
Module Study.
Record t := {
  study_name : string;
  direction : PyVal;
  user_attrs : gmap string PyVal;
}.
End Study.

(** Modelled from the spec: [optuna.trial.Trial], the running trial an
    objective function receives: a handle on the trial's record in the
    study's storage, where its attributes are written. *)
Module Trial.
Record t := {
  study : Study.t;
  number : Z;
  _trial_id : nat;
}.
End Trial.

(** ** The tracking client *)

(** Modelled from the spec: the [mlflow] package, which is not part of this
    repository. Section 6 of the spec gives its interface: set-endpoint,
    select/create-experiment-by-name, open-run (by name, optional existing
    run-id, optional nesting flag) returning a run handle with an
    identifier, log-metric, log-params, set-tags, and a maximum tag-value
    length; a run has the lifecycle open, write, close, optionally nested
    inside a parent run. *)
Module RunStatus.
Inductive t := RUNNING | FINISHED | FAILED.

Global Instance eq_dec : EqDecision t.
Proof. solve_decision. Defined.
End RunStatus.

Module backend.

(** A run as the backend records it. *)
Record Run := {
  run_name : option string;
  run_experiment : option string;
  run_parent : option string;
  run_status : RunStatus.t;
  run_metrics : list (string * spec_float);
  run_params : gmap string PyVal;
  run_tags : gmap string PyVal;
}.

(** The client's state: the endpoint, the experiments, the selected one,
    the runs by identifier, and the stack of active runs (innermost
    first). *)
Record State := {
  tracking_uri : option string;
  experiments : gset string;
  active_experiment : option string;
  runs : gmap string Run;
  _active_run_stack : list string;
}.

(** The calls of the client that reach the backend. *)
Inductive Call :=
| SetTrackingUri (uri : string)
| SetExperiment (name : string)
| StartRun (run_id : option PyVal) (run_name : option string) (nested : bool)
| LogMetric (key : string) (v : spec_float)
| LogParams (params : gmap string PyVal)
| SetTags (tags : gmap string PyVal).

(** What the installation fixes: the constant
    [mlflow.utils.validation.MAX_TAG_VAL_LENGTH], and which calls the
    backend refuses in which state (an unreachable endpoint, an invalid
    tag, ...): a refused call raises and changes nothing. *)
Class Backend := {
  MAX_TAG_VAL_LENGTH : nat;
  rejects : Call → State → bool;
}.

Definition set_runs (f : gmap string Run → gmap string Run) (st : State) : State :=
  {| tracking_uri := tracking_uri st;
     experiments := experiments st;
     active_experiment := active_experiment st;
     runs := f (runs st);
     _active_run_stack := _active_run_stack st |}.

Definition set_stack (stack : list string) (st : State) : State :=
  {| tracking_uri := tracking_uri st;
     experiments := experiments st;
     active_experiment := active_experiment st;
     runs := runs st;
     _active_run_stack := stack |}.

Definition set_status (status : RunStatus.t) (r : Run) : Run :=
  {| run_name := run_name r;
     run_experiment := run_experiment r;
     run_parent := run_parent r;
     run_status := status;
     run_metrics := run_metrics r;
     run_params := run_params r;
     run_tags := run_tags r |}.

Definition add_metric (key : string) (v : spec_float) (r : Run) : Run :=
  {| run_name := run_name r;
     run_experiment := run_experiment r;
     run_parent := run_parent r;
     run_status := run_status r;
     run_metrics := run_metrics r ++ [(key, v)];
     run_params := run_params r;
     run_tags := run_tags r |}.

Definition add_params (params : gmap string PyVal) (r : Run) : Run :=
  {| run_name := run_name r;
     run_experiment := run_experiment r;
     run_parent := run_parent r;
     run_status := run_status r;
     run_metrics := run_metrics r;
     run_params := params ∪ run_params r;
     run_tags := run_tags r |}.

Definition add_tags (tags : gmap string PyVal) (r : Run) : Run :=
  {| run_name := run_name r;
     run_experiment := run_experiment r;
     run_parent := run_parent r;
     run_status := run_status r;
     run_metrics := run_metrics r;
     run_params := run_params r;
     run_tags := tags ∪ run_tags r |}.

(** The run that [start_run] creates. *)
Definition new_run (name : option string) (st : State) : Run :=
  {| run_name := name;
     run_experiment := active_experiment st;
     run_parent := head (_active_run_stack st);
     run_status := RunStatus.RUNNING;
     run_metrics := [];
     run_params := ∅;
     run_tags := ∅ |}.

End backend.

(** ** The world and its monad *)

(** What the callback reads and writes: the tracking client's state and the
    study's storage, which maps the identifier of a trial to its record. *)
Record World := {
  tracking : backend.State;
  storage : gmap nat FrozenTrial.t;
}.

(** A Python computation: from a world to a value or a raised exception,
    and the world it leaves. *)
Definition M (A : Type) : Type := World → Outcome A * World.

Global Instance M_ret : MRet M := λ A a w, (Ok a, w).
Global Instance M_bind : MBind M := λ A B f m w,
  match m w with
  | (Ok a, w') => f a w'
  | (Raise e, w') => (Raise e, w')
  end.

Definition raise {A} (e : exn) : M A := λ w, (Raise e, w).

Definition get_tracking : M backend.State := λ w, (Ok (tracking w), w).

Definition modify_tracking (f : backend.State → backend.State) : M unit := λ w,
  (Ok (), {| tracking := f (tracking w); storage := storage w |}).

(** A pure computation that may raise, run in place. *)
Definition lift {A} (o : Outcome A) : M A := λ w, (o, w).

(** Modelled from the spec: the functions of the [mlflow] package that the
    callback calls, on the backend above. A call the backend refuses raises
    [MlflowException] and changes nothing. *)
Module mlflow.
Import backend.

(** The handle [start_run] returns; [info_run_id] is [run.info.run_id]. *)
Record ActiveRun := { info_run_id : string }.

Section Client.
Context {server : Backend}.

(** The request goes to the backend, which may refuse it. *)
Definition request (c : Call) : M unit := λ w,
  if rejects c (tracking w) then (Raise MlflowException, w) else (Ok (), w).

Definition set_tracking_uri (uri : string) : M unit :=
  request (SetTrackingUri uri);;
  modify_tracking (λ st,
    {| tracking_uri := Some uri;
       experiments := experiments st;
       active_experiment := active_experiment st;
       runs := runs st;
       _active_run_stack := _active_run_stack st |}).

(** Selects the experiment of that name, creating it when it does not exist. *)
Definition set_experiment (experiment_name : string) : M unit :=
  request (SetExperiment experiment_name);;
  modify_tracking (λ st,
    {| tracking_uri := tracking_uri st;
       experiments := {[experiment_name]} ∪ experiments st;
       active_experiment := Some experiment_name;
       runs := runs st;
       _active_run_stack := _active_run_stack st |}).

(** Opens a run and makes it the active one. With the identifier of an
    existing run, that run is resumed; without one, a run is created under
    a fresh identifier, as a child of the active run if there is one. A run
    can only be opened inside another with [nested]. *)
Definition start_run (run_id : option PyVal) (run_name : option string) (nested : bool)
    : M ActiveRun :=
  request (StartRun run_id run_name nested);;
  st ← get_tracking;
  if negb (bool_decide (_active_run_stack st = [])) && negb nested
  then raise MlflowException
  else
    match run_id with
    | Some (PStr existing_run_id) =>
        match runs st !! existing_run_id with
        | Some _ =>
            modify_tracking (λ st,
              set_stack (existing_run_id :: _active_run_stack st)
                (set_runs (alter (set_status RunStatus.RUNNING) existing_run_id) st));;
            mret {| info_run_id := existing_run_id |}
        | None => raise MlflowException
        end
    | None | Some PNone =>
        let new_id := fresh (dom (runs st)) in
        modify_tracking (λ st,
          set_stack (new_id :: _active_run_stack st)
            (set_runs (insert new_id (new_run run_name st)) st));;
        mret {| info_run_id := new_id |}
    | Some _ => raise MlflowException
    end.

(** Closes the active run, if there is one, with the given status. *)
Definition end_run (status : RunStatus.t) : M unit :=
  modify_tracking (λ st,
    match _active_run_stack st with
    | run_id :: stack => set_stack stack (set_runs (alter (set_status status) run_id) st)
    | [] => st
    end).

(** The active run; a run is started when there is none. *)
Definition _get_or_start_run : M string :=
  st ← get_tracking;
  match _active_run_stack st with
  | run_id :: _ => mret run_id
  | [] => run ← start_run None None false; mret (info_run_id run)
  end.

Definition log_metric (key : string) (v : spec_float) : M unit :=
  request (LogMetric key v);;
  run_id ← _get_or_start_run;
  modify_tracking (set_runs (alter (add_metric key v) run_id)).

Definition log_params (params : gmap string PyVal) : M unit :=
  request (LogParams params);;
  run_id ← _get_or_start_run;
  modify_tracking (set_runs (alter (add_params params) run_id)).

Definition set_tags (tags : gmap string PyVal) : M unit :=
  request (SetTags tags);;
  run_id ← _get_or_start_run;
  modify_tracking (set_runs (alter (add_tags tags) run_id)).

(** [ActiveRun.__exit__]: the run ends as finished, or as failed when an
    exception leaves the block; the exception is never swallowed. *)
Definition __exit__ (self : ActiveRun) (exc : option exn) : M bool :=
  let status := if exc is None then RunStatus.FINISHED else RunStatus.FAILED in
  end_run status;;
  mret (bool_decide (exc = None)).

(** [with run: body], [run] being the handle [start_run] returned
    ([__enter__] returns the handle itself). [__exit__] runs however the
    body ends; an exception of the body goes on unless [__exit__] returns
    true, in which case control passes to what follows the block ([None]
    here). *)
Definition with_run {A} (run : ActiveRun) (body : ActiveRun → M A) : M (option A) := λ w,
  match body run w with
  | (Ok a, w') => (__exit__ run None;; mret (Some a)) w'
  | (Raise e, w') =>
      (suppress ← __exit__ run (Some e);
       if suppress : bool then mret None else raise e) w'
  end.

End Client.
End mlflow.

(** ** optuna.integration.mlflow *)

Definition RUN_ID_ATTRIBUTE_KEY : string := "mlflow_run_id".

(** [trial.set_system_attr(key, value)]: the attribute is written to the
    trial's record in the storage; a trial the storage does not know is a
    [KeyError]. *)
Definition set_system_attr (trial : Trial.t) (key : string) (v : PyVal) : M unit := λ w,
  match storage w !! Trial._trial_id trial with
  | Some record =>
      (Ok (), {| tracking := tracking w;
                 storage := <[Trial._trial_id trial :=
                              FrozenTrial.with_system_attr key v record]> (storage w) |})
  | None => (Raise KeyError, w)
  end.

(** [tags.update(other)]: the keys of [other] are set in [tags]. *)
Definition dict_update {V} (tags other : gmap string V) : gmap string V := other ∪ tags.

Module MLflowCallback.

(** The callback object, as [__init__] fills it. *)
Record t := {
  _tracking_uri : option string;
  _metric_name : string;
  _nest_trials : bool;
  _tag_study_user_attrs : bool;
}.

(** [MLflowCallback()], every argument at its default. *)
Definition with_defaults : t :=
  {| _tracking_uri := None;
     _metric_name := "value";
     _nest_trials := false;
     _tag_study_user_attrs := false |}.

Section Methods.
Context {python : Python} {server : backend.Backend}.

Definition _initialize_experiment (self : t) (study : Study.t) : M unit :=
  (if _tracking_uri self is Some uri then mlflow.set_tracking_uri uri else mret ());;
  mlflow.set_experiment (Study.study_name study).

(** Lines 210 to 224 of [_set_tags]: the number, the dates, and the state and
    the direction when they are of the expected classes. *)
Definition base_tags (trial : FrozenTrial.t) (study : Study.t) : gmap string PyVal :=
  let tags : gmap string PyVal := ∅ in
  let tags := <["number" := PStr (py_str (PInt (FrozenTrial.number trial)))]> tags in
  let tags := <["datetime_start" := PStr (py_str (FrozenTrial.datetime_start trial))]> tags in
  let tags :=
    <["datetime_complete" := PStr (py_str (FrozenTrial.datetime_complete trial))]> tags in
  let trial_state := FrozenTrial.state trial in
  let tags :=
    match trial_state with
    | PTrialState s =>
        if TrialState.is_finished s
        then <["state" := PStr (Str.last_item (Str.split "." (py_str trial_state)))]> tags
        else tags
    | _ => tags
    end in
  let study_direction := Study.direction study in
  let tags :=
    match study_direction with
    | PStudyDirection _ =>
        <["direction" := PStr (Str.last_item (Str.split "." (py_str study_direction)))]> tags
    | _ => tags
    end in
  tags.

(** Line 227: [{(k + "_distribution"): str(v) for (k, v) in
    trial.distributions.items()}]. *)
Definition distribution_tags (trial : FrozenTrial.t) : gmap string PyVal :=
  map_fold (λ k v acc, <[k +:+ "_distribution" := PStr (distribution_repr v)]> acc)
           ∅ (FrozenTrial.distributions trial).

(** Lines 226 to 231 of [_set_tags]: the three updates. *)
Definition merged_tags (self : t) (trial : FrozenTrial.t) (study : Study.t)
    : gmap string PyVal :=
  let tags := base_tags trial study in
  let tags := dict_update tags (FrozenTrial.user_attrs trial) in
  let distributions := distribution_tags trial in
  let tags := dict_update tags distributions in
  if _tag_study_user_attrs self
  then dict_update tags (Study.user_attrs study)
  else tags.

(** The body of the loop of lines 238 to 241, on one item. *)
Definition shorten_item (tags : gmap string PyVal) (item : string * PyVal)
    : Outcome (gmap string PyVal) :=
  let '(key, value) := item in
  let value := py_str value in
  if (backend.MAX_TAG_VAL_LENGTH <? String.length value)%nat
  then short ← textwrap.shorten value backend.MAX_TAG_VAL_LENGTH;
       Ok (<[key := PStr short]> tags)
  else Ok tags.

(** Lines 238 to 241: [for key, value in tags.items()]. Assigning to a key
    the dictionary has leaves its other items as they are, so the loop runs
    over the items the dictionary had on entry. *)
Definition shorten_long_values (tags : gmap string PyVal) : Outcome (gmap string PyVal) :=
  for_each shorten_item tags (map_to_list tags).

(** The dictionary that [_set_tags] hands to [mlflow.set_tags] at line 244. *)
Definition final_tags (self : t) (trial : FrozenTrial.t) (study : Study.t)
    : Outcome (gmap string PyVal) :=
  shorten_long_values (merged_tags self trial study).

Definition _set_tags (self : t) (trial : FrozenTrial.t) (study : Study.t) : M unit :=
  tags ← lift (final_tags self trial study);
  mlflow.set_tags tags.

(** [float("nan")]. *)
Definition nan : spec_float := S754_nan.

Definition _log_metric (self : t) (value : option spec_float) : M unit :=
  let trial_value := if value is Some v then v else nan in
  mlflow.log_metric (_metric_name self) trial_value.

Definition _log_params (trial : FrozenTrial.t) : M unit :=
  mlflow.log_params (FrozenTrial.params trial).

(** [MLflowCallback.__call__], the spec's [record]. *)
Definition __call__ (self : t) (study : Study.t) (trial : FrozenTrial.t) : M unit :=
  _initialize_experiment self study;;
  run ← mlflow.start_run
           (FrozenTrial.system_attrs trial !! RUN_ID_ATTRIBUTE_KEY)
           (Some (py_str (PInt (FrozenTrial.number trial))))
           (_nest_trials self);
  mlflow.with_run run (λ _,
    _log_metric self (FrozenTrial.value trial);;
    _log_params trial;;
    _set_tags self trial study);;
  mret ().

(** The [wrapper] that [track_in_mlflow]'s decorator puts around the
    objective function [func]. Falling off the end of the function, which
    takes an exception swallowed by the [with], returns [None]. *)
Definition wrapper (self : t) (func : Trial.t → M PyVal) (trial : Trial.t) : M PyVal :=
  let study := Trial.study trial in
  _initialize_experiment self study;;
  run ← mlflow.start_run None (Some (py_str (PInt (Trial.number trial)))) (_nest_trials self);
  returned ← mlflow.with_run run (λ run,
    set_system_attr trial RUN_ID_ATTRIBUTE_KEY (PStr (mlflow.info_run_id run));;
    func trial);
  mret (default PNone returned).

Definition track_in_mlflow (self : t) : (Trial.t → M PyVal) → Trial.t → M PyVal :=
  λ func, wrapper self func.

End Methods.
End MLflowCallback.

(** ** Predicates of the proofs, and a concrete platform *)

(** The lines fit: there is at most one, no longer than [width]. *)
Definition fits (width : nat) (lines : list string) : Prop :=
  (length lines ≤ 1)%nat ∧ Forall (λ l, (String.length l ≤ width)%nat) lines.

(** The state of [wrap_loop] between two passes: the lines fit, and once a
    line is there, nothing is left to wrap but one chunk of whitespace. *)
Definition settled (width : nat) (chunks lines : list string) : Prop :=
  fits width lines
  ∧ (lines ≠ [] → chunks = [] ∨ ∃ c, chunks = [c] ∧ Str.strip c = "").

(** How the loop of lines 238 to 241 leaves a value [v] of the dictionary:
    shortened to a text when [str(v)] is longer than the limit, and as it
    is otherwise. *)
Definition left_as {python : Python} {server : backend.Backend} (v v' : PyVal) : Prop :=
  if (backend.MAX_TAG_VAL_LENGTH <? String.length (py_str v))%nat
  then ∃ short,
         textwrap.shorten (py_str v) backend.MAX_TAG_VAL_LENGTH = Ok short
         ∧ v' = PStr short
  else v' = v.

(** The stack of active runs and the runs of a world. *)
Definition active_stack (w : World) : list string :=
  backend._active_run_stack (tracking w).

Definition run_store (w : World) : gmap string backend.Run :=
  backend.runs (tracking w).

(** The world with the run [run_id] changed by [f]. *)
Definition update_run (f : backend.Run → backend.Run) (run_id : string) (w : World)
    : World :=
  {| tracking := backend.set_runs (alter f run_id) (tracking w); storage := storage w |}.

(** The world after [end_run(status)]. *)
Definition closed (status : RunStatus.t) (w : World) : World :=
  match active_stack w with
  | run_id :: stack =>
      {| tracking := backend.set_stack stack
                       (backend.set_runs (alter (backend.set_status status) run_id)
                          (tracking w));
         storage := storage w |}
  | [] => w
  end.

(** How [start_run] opened the run [run_id] between [w] and [w']: by
    resuming the run of that identifier, or by creating one under a fresh
    identifier. *)
Inductive opened (run_id : option PyVal) (run_name : option string) (w w' : World)
    (new_id : string) : Prop :=
| opened_resumed (r : backend.Run) :
    run_id = Some (PStr new_id) →
    run_store w !! new_id = Some r →
    run_store w' = <[new_id := backend.set_status RunStatus.RUNNING r]> (run_store w) →
    opened run_id run_name w w' new_id
| opened_created :
    run_id = None ∨ run_id = Some PNone →
    new_id = fresh (dom (run_store w)) →
    run_store w' = <[new_id := backend.new_run run_name (tracking w)]> (run_store w) →
    opened run_id run_name w w' new_id.

(** The maximal runs of whitespace and of other characters: what
    [wordsep_re.split] gives on a text without hyphens. *)
Fixpoint runs_of (s : string) : list string :=
  match s with
  | "" => []
  | String c s' =>
      match runs_of s' with
      | String d w :: ws =>
          if bool_decide (Str.isspace c = Str.isspace d)
          then String c (String d w) :: ws
          else String c "" :: String d w :: ws
      | ws => String c "" :: ws
      end
  end.

(** A platform to run the definitions on: floats print in the style of
    [float.hex] (sign, mantissa, binary exponent), which stands in for
    [float.__repr__]. *)
Definition hex_repr (x : spec_float) : string :=
  match x with
  | S754_zero s => if s then "-0.0" else "0.0"
  | S754_infinity s => if s then "-inf" else "inf"
  | S754_nan => "nan"
  | S754_finite s m e =>
      (if s then "-" else "") +:+ pretty (Zpos m) +:+ "p" +:+ pretty e
  end.

Definition example_python : Python :=
  {| float_repr := hex_repr; wordsep_split := runs_of |}.

(** A backend that refuses nothing, with the tag length limit 5000 of the
    mlflow releases this callback was written for. *)
Definition accepting_backend : backend.Backend :=
  {| backend.MAX_TAG_VAL_LENGTH := 5000; backend.rejects := λ _ _, false |}.

(** A backend with a limit of 12 characters, to see values shortened. *)
Definition narrow_backend : backend.Backend :=
  {| backend.MAX_TAG_VAL_LENGTH := 12; backend.rejects := λ _ _, false |}.

(** A backend that refuses every call that writes to a run. *)
Definition readonly_backend : backend.Backend :=
  {| backend.MAX_TAG_VAL_LENGTH := 5000;
     backend.rejects := λ c _,
       match c with
       | backend.LogMetric _ _ | backend.LogParams _ | backend.SetTags _ => true
       | _ => false
       end |}.

(** The client before any call. *)
Definition fresh_tracking : backend.State :=
  {| backend.tracking_uri := None;
     backend.experiments := ∅;
     backend.active_experiment := None;
     backend.runs := ∅;
     backend._active_run_stack := [] |}.

Definition fresh_world : World := {| tracking := fresh_tracking; storage := ∅ |}.

(** ** Example data *)

(** The floats 4.0 and 1.5 in binary64. *)
Definition four : spec_float := S754_finite false 4503599627370496 (-50).
Definition one_and_a_half : spec_float := S754_finite false 6755399441055744 (-52).

(** The study and the trial of the spec's end-to-end scenario. *)
Definition study_s1 : Study.t :=
  {| Study.study_name := "s1";
     Study.direction := PStudyDirection StudyDirection.MINIMIZE;
     Study.user_attrs := ∅ |}.

Definition trial_3 : FrozenTrial.t :=
  {| FrozenTrial.number := 3;
     FrozenTrial.datetime_start := PDatetime "2021-06-01 12:00:00.000000";
     FrozenTrial.datetime_complete := PDatetime "2021-06-01 12:00:01.500000";
     FrozenTrial.state := PTrialState TrialState.COMPLETE;
     FrozenTrial.value := Some four;
     FrozenTrial.params := {["x" := PFloat one_and_a_half]};
     FrozenTrial.distributions :=
       {["x" := {| distribution_repr := "UniformDistribution(high=10.0, low=-10.0)" |}]};
     FrozenTrial.user_attrs := ∅;
     FrozenTrial.system_attrs := ∅ |}.

(** The same trial with other user attributes. *)
Definition with_user_attrs (attrs : gmap string PyVal) (trial : FrozenTrial.t)
    : FrozenTrial.t :=
  {| FrozenTrial.number := FrozenTrial.number trial;
     FrozenTrial.datetime_start := FrozenTrial.datetime_start trial;
     FrozenTrial.datetime_complete := FrozenTrial.datetime_complete trial;
     FrozenTrial.state := FrozenTrial.state trial;
     FrozenTrial.value := FrozenTrial.value trial;
     FrozenTrial.params := FrozenTrial.params trial;
     FrozenTrial.distributions := FrozenTrial.distributions trial;
     FrozenTrial.user_attrs := attrs;
     FrozenTrial.system_attrs := FrozenTrial.system_attrs trial |}.

(** A pruned trial: no result value. *)
Definition trial_pruned : FrozenTrial.t :=
  {| FrozenTrial.number := 4;
     FrozenTrial.datetime_start := PDatetime "2021-06-01 12:00:02.000000";
     FrozenTrial.datetime_complete := PDatetime "2021-06-01 12:00:02.250000";
     FrozenTrial.state := PTrialState TrialState.PRUNED;
     FrozenTrial.value := None;
     FrozenTrial.params := {["x" := PFloat one_and_a_half]};
     FrozenTrial.distributions := ∅;
     FrozenTrial.user_attrs := ∅;
     FrozenTrial.system_attrs := ∅ |}.

(** A trial that is running, as the storage holds it while the objective
    function is evaluated, and the handle the objective receives. *)
Definition trial_running : FrozenTrial.t :=
  {| FrozenTrial.number := 3;
     FrozenTrial.datetime_start := PDatetime "2021-06-01 12:00:00.000000";
     FrozenTrial.datetime_complete := PNone;
     FrozenTrial.state := PTrialState TrialState.RUNNING;
     FrozenTrial.value := None;
     FrozenTrial.params := ∅;
     FrozenTrial.distributions := ∅;
     FrozenTrial.user_attrs := ∅;
     FrozenTrial.system_attrs := ∅ |}.

Definition live_trial : Trial.t :=
  {| Trial.study := study_s1; Trial.number := 3; Trial._trial_id := 0 |}.

Definition world_with_trial : World :=
  {| tracking := fresh_tracking; storage := {[0%nat := trial_running]} |}.

(** An objective function that logs a metric of its own and returns 4.0,
    and one that raises. *)
Definition objective {server : backend.Backend} (trial : Trial.t) : M PyVal :=
  mlflow.log_metric "base of metric" one_and_a_half;;
  mret (PFloat four).

Definition failing_objective (trial : Trial.t) : M PyVal :=
  raise (Exception "objective failed").

(** An objective that opens a nested run of its own and does not close it. *)
Definition nesting_objective {server : backend.Backend} (trial : Trial.t) : M PyVal :=
  mlflow.start_run None (Some "inner") true;;
  mret (PFloat four).

(** The same, for an objective that then raises. *)
Definition nesting_failing_objective {server : backend.Backend} (trial : Trial.t)
    : M PyVal :=
  mlflow.start_run None (Some "inner") true;;
  raise (Exception "objective failed").

(** A study whose user attributes name a distribution tag. *)
Definition study_tagged : Study.t :=
  {| Study.study_name := "s1";
     Study.direction := PStudyDirection StudyDirection.MINIMIZE;
     Study.user_attrs := {["x_distribution" := PStr "from the study"]} |}.

(** A callback that copies the study's user attributes. *)
Definition tagging_callback : MLflowCallback.t :=
  {| MLflowCallback._tracking_uri := None;
     MLflowCallback._metric_name := "value";
     MLflowCallback._nest_trials := false;
     MLflowCallback._tag_study_user_attrs := true |}.

(** The trial of the scenario with a user attribute that is an integer,
    with a user attribute named [number], and with a long remark. *)
Definition trial_int_attr : FrozenTrial.t :=
  with_user_attrs {["k" := PInt 5]} trial_3.

Definition trial_renumbered : FrozenTrial.t :=
  with_user_attrs {["number" := PStr "seven"]} trial_3.

Definition trial_long_note : FrozenTrial.t :=
  with_user_attrs {["note" := PStr "a remark that is too long"]} trial_3.

(** A trial that is still running, with user attributes named [state] and
    [direction]. *)
Definition trial_running_tagged : FrozenTrial.t :=
  with_user_attrs {["state" := PStr "COMPLETE"; "direction" := PStr "up"]} trial_running.

(** The dictionary a computation built, empty when it raised. *)
Definition the_tags (o : Outcome (gmap string PyVal)) : gmap string PyVal :=
  match o with Ok tags => tags | Raise _ => ∅ end.

(** The world the decorated objective leaves on the example platform, and
    the trial as the study then hands it to the callback: finished, with
    its value, and with the run identifier the wrapper stashed. *)
Definition world_after_objective : World :=
  (MLflowCallback.wrapper (python := example_python) (server := accepting_backend)
     MLflowCallback.with_defaults (objective (server := accepting_backend))
     live_trial world_with_trial).2.

Definition trial_finished : FrozenTrial.t :=
  {| FrozenTrial.number := 3;
     FrozenTrial.datetime_start := PDatetime "2021-06-01 12:00:00.000000";
     FrozenTrial.datetime_complete := PDatetime "2021-06-01 12:00:01.500000";
     FrozenTrial.state := PTrialState TrialState.COMPLETE;
     FrozenTrial.value := Some four;
     FrozenTrial.params := {["x" := PFloat one_and_a_half]};
     FrozenTrial.distributions :=
       {["x" := {| distribution_repr := "UniformDistribution(high=10.0, low=-10.0)" |}]};
     FrozenTrial.user_attrs := ∅;
     FrozenTrial.system_attrs := {[RUN_ID_ATTRIBUTE_KEY := PStr "0"]} |}.

(** Unfolds the monad's operations in the goal and the hypotheses. *)
Ltac unfold_monad :=
  unfold mlflow.request, modify_tracking, get_tracking, raise, lift,
    mbind, M_bind, mret, M_ret in *.

(** The run [__call__] opens for a trial: the run whose identifier is
    stashed on the trial, or else the run under the next fresh identifier. *)
Definition run_of (trial : FrozenTrial.t) (w : World) : string :=
  match FrozenTrial.system_attrs trial !! RUN_ID_ATTRIBUTE_KEY with
  | Some (PStr run_id) => run_id
  | _ => fresh (dom (run_store w))
  end.

(** A backend that cannot be reached: it refuses every call. *)
Definition unreachable_backend : backend.Backend :=
  {| backend.MAX_TAG_VAL_LENGTH := 5000; backend.rejects := λ _ _, true |}.

(** A backend whose limit of 3 characters leaves no room for the
    placeholder of [textwrap.shorten]. *)
Definition tiny_backend : backend.Backend :=
  {| backend.MAX_TAG_VAL_LENGTH := 3; backend.rejects := λ _ _, false |}.

(** A callback with a tracking URI. *)
Definition callback_with_uri : MLflowCallback.t :=
  {| MLflowCallback._tracking_uri := Some "http://tracker:5000";
     MLflowCallback._metric_name := "accuracy";
     MLflowCallback._nest_trials := false;
     MLflowCallback._tag_study_user_attrs := false |}.

(** A trial without parameters, distributions or attributes, that never
    started. *)
Definition trial_bare : FrozenTrial.t :=
  {| FrozenTrial.number := 0;
     FrozenTrial.datetime_start := PNone;
     FrozenTrial.datetime_complete := PNone;
     FrozenTrial.state := PTrialState TrialState.FAIL;
     FrozenTrial.value := None;
     FrozenTrial.params := ∅;
     FrozenTrial.distributions := ∅;
     FrozenTrial.user_attrs := ∅;
     FrozenTrial.system_attrs := ∅ |}.

(** The study [s1] with user attributes. *)
Definition study_annotated : Study.t :=
  {| Study.study_name := "s1";
     Study.direction := PStudyDirection StudyDirection.MINIMIZE;
     Study.user_attrs := {["owner" := PStr "team"]} |}.

(** A world in which a run is active. *)
Definition world_with_open_run : World :=
  (mlflow.start_run (server := accepting_backend) None (Some "parent") false
     fresh_world).2.

(** * Properties *)

(** ** Strings *)

Lemma length_app (s1 s2 : string) :
  String.length (s1 +:+ s2) = (String.length s1 + String.length s2)%nat.
Proof. induction s1 as [|c s1 IH]; simpl; [done|]. by rewrite IH. Qed.

Lemma length_str_drop n s : String.length (Str.drop n s) = (String.length s - n)%nat.
Proof. revert s. induction n as [|n IH]; intros [|c s]; simpl; auto. Qed.

Lemma length_str_take n s : String.length (Str.take n s) = (String.length s `min` n)%nat.
Proof. revert s. induction n as [|n IH]; intros [|c s]; simpl; auto. Qed.

Lemma total_len_snoc l c :
  textwrap.total_len (l ++ [c]) = (textwrap.total_len l + String.length c)%nat.
Proof.
  unfold textwrap.total_len. rewrite fmap_app, sum_list_with_app. simpl. lia.
Qed.

Lemma length_join_empty l :
  String.length (Str.join "" l) = textwrap.total_len l.
Proof.
  induction l as [|c [|d l] IH]; [done| |].
  - unfold textwrap.total_len. simpl. lia.
  - change (Str.join "" (c :: d :: l)) with (c +:+ "" +:+ Str.join "" (d :: l)).
    rewrite !length_app, IH. unfold textwrap.total_len. simpl. lia.
Qed.

Lemma total_len_removelast l c :
  last l = Some c →
  textwrap.total_len (removelast l) = (textwrap.total_len l - String.length c)%nat.
Proof.
  intros [l' ->]%last_Some. rewrite removelast_last, total_len_snoc. lia.
Qed.

(** ** textwrap: the shortened text fits the width *)

Lemma fill_total_len width chunks cur_line cur_len chunks' cur_line' cur_len' :
  textwrap.fill width chunks cur_line cur_len = (chunks', cur_line', cur_len') →
  cur_len = textwrap.total_len cur_line →
  cur_len' = textwrap.total_len cur_line'.
Proof.
  revert cur_line cur_len. induction chunks as [|c rest IH]; intros cl n; simpl.
  - by intros [= _ <- <-].
  - destruct (_ <=? _)%nat; [|by intros [= _ <- <-]].
    intros Hfill ->. eapply IH; [done|]. by rewrite total_len_snoc.
Qed.

Lemma place_fits width rev_line cur_len line :
  cur_len = textwrap.total_len (rev rev_line) →
  textwrap.place width rev_line cur_len = Some line →
  (String.length line ≤ width)%nat.
Proof.
  revert cur_len line.
  induction rev_line as [|c rest IH]; intros n line Hn; simpl; [done|].
  destruct (negb _ && (_ <=? _)%nat) eqn:Hroom.
  - intros [= <-]. apply andb_prop in Hroom as [_ Hle%Nat.leb_le].
    rewrite length_join_empty, total_len_snoc. simpl in Hn.
    change (String.length textwrap.placeholder) with 6%nat in *. lia.
  - apply IH. simpl in Hn. rewrite total_len_snoc in Hn. lia.
Qed.

Lemma fits_one width line :
  (String.length line ≤ width)%nat → fits width [line].
Proof. intros Hle. split; [simpl; lia|]. by repeat constructor. Qed.

Lemma initial_indent_app s : textwrap.initial_indent +:+ s = s.
Proof. done. Qed.

Lemma iteration_settled width chunks lines :
  (5 ≤ width)%nat → chunks ≠ [] → settled width chunks lines →
  match textwrap.iteration width chunks lines with
  | textwrap.Next chunks' lines' => settled width chunks' lines'
  | textwrap.Stop lines' => fits width lines'
  end.
Proof.
  intros Hw Hne [[Hlen Hall] Hrest].
  destruct lines as [|l [|]]; [| |simpl in Hlen; lia].
  - (* no line yet: the pass builds one, or leaves the chunks shorter *)
    unfold textwrap.iteration. destruct chunks as [|c rest]; [done|].
    rewrite (bool_decide_eq_true_2 ([] = [])), andb_false_r by done.
    destruct (textwrap.fill width (c :: rest) [] 0) as [[chunks2 cl2] n2] eqn:Hfill.
    apply fill_total_len in Hfill; [|done].
    set (long := match chunks2 with [] => _ | _ => _ end).
    assert (Hlong : ∃ chunks3 cl3, long = (chunks3, cl3, textwrap.total_len cl3)).
    { subst long n2. destruct chunks2 as [|d l]; [eauto|].
      destruct (_ <? _)%nat; [|eauto]. unfold textwrap._handle_long_word. eauto. }
    destruct Hlong as (chunks3 & cl3 & ->).
    set (trimmed := match last cl3 with Some _ => _ | None => _ end).
    assert (Htrim : ∃ cl4, trimmed = (cl4, textwrap.total_len cl4)).
    { subst trimmed. destruct (last cl3) as [d|] eqn:Hlast; [|eauto].
      destruct (bool_decide _); [|eauto].
      eexists. by rewrite (total_len_removelast _ _ Hlast). }
    destruct Htrim as (cl4 & ->).
    destruct cl4 as [|d cl4]; [done|].
    set (line := Str.join "" (d :: cl4)).
    assert (Hline : String.length line = textwrap.total_len (d :: cl4))
      by apply length_join_empty.
    rewrite !initial_indent_app.
    destruct (_ || _) eqn:Hcond.
    + apply orb_prop in Hcond as [?|[Hleft Hle%Nat.leb_le]%andb_prop]; [done|].
      split; [apply fits_one; simpl; lia|]. intros _.
      destruct chunks3 as [|e [|]]; [by left| |done].
      apply bool_decide_eq_true in Hleft. right. eauto.
    + destruct (textwrap.place _ _ _) as [short|] eqn:Hplace; simpl.
      * apply fits_one. eapply place_fits; [|done]. by rewrite rev_involutive.
      * apply fits_one. simpl. lia.
  - (* the line is there: the chunk of whitespace is dropped *)
    destruct Hrest as [->|(c & -> & Hc)]; [done|done|].
    unfold textwrap.iteration.
    rewrite (bool_decide_eq_true_2 _ Hc), bool_decide_eq_false_2 by done. simpl.
    split; [done|]. intros _. by left.
Qed.

Lemma wrap_loop_fits width chunks lines :
  (5 ≤ width)%nat → settled width chunks lines →
  fits width (textwrap.wrap_loop width chunks lines).
Proof.
  intros Hw. funelim (textwrap.wrap_loop width chunks lines); intros Hst.
  - by destruct Hst.
  - match goal with IH : _ → _ → fits _ _ |- _ => apply IH; [done|] end.
    pose proof (iteration_settled width (c :: rest) lines Hw ltac:(done) Hst) as Hnext.
    by rewrite Hit in Hnext.
  - pose proof (iteration_settled width (c :: rest) lines Hw ltac:(done) Hst) as Hnext.
    match goal with
    | Hstop : textwrap.iteration _ _ _ = textwrap.Stop _ |- _ => by rewrite Hstop in Hnext
    end.
Qed.

Section PythonFacts.
Context {python : Python}.

(** [shorten] raises exactly when the width has no room for the
    placeholder without its leading space. *)
Lemma shorten_raises text width :
  (width < 5)%nat → textwrap.shorten text width = Raise ValueError.
Proof.
  intros Hw. unfold textwrap.shorten, textwrap.fill_text, textwrap.wrap,
    textwrap._wrap_chunks.
  destruct (Nat.leb_spec width 0); [done|].
  change (String.length textwrap.initial_indent
          + String.length (Str.lstrip textwrap.placeholder))%nat with 5%nat.
  by destruct (Nat.ltb_spec width 5); [|lia].
Qed.

Lemma shorten_returns text width :
  (5 ≤ width)%nat →
  ∃ short, textwrap.shorten text width = Ok short ∧ (String.length short ≤ width)%nat.
Proof.
  intros Hw. unfold textwrap.shorten, textwrap.fill_text, textwrap.wrap,
    textwrap._wrap_chunks.
  destruct (Nat.leb_spec width 0); [lia|].
  change (String.length textwrap.initial_indent
          + String.length (Str.lstrip textwrap.placeholder))%nat with 5%nat.
  destruct (Nat.ltb_spec width 5); [lia|]. simpl.
  eexists. split; [done|].
  set (chunks := textwrap._split_chunks _).
  destruct (wrap_loop_fits width chunks [] Hw) as [Hlen Hall].
  { split; [|done]. split; [simpl; lia|constructor]. }
  destruct (textwrap.wrap_loop width chunks []) as [|line [|]];
    [simpl; lia| |simpl in Hlen; lia].
  by apply Forall_cons in Hall as [? _].
Qed.

Lemma shorten_fits text width short :
  textwrap.shorten text width = Ok short → (String.length short ≤ width)%nat.
Proof.
  intros Hshort. destruct (Nat.lt_ge_cases width 5) as [Hw|Hw].
  - by rewrite shorten_raises in Hshort.
  - destruct (shorten_returns text width Hw) as (short' & Heq & Hle). congruence.
Qed.

End PythonFacts.

(** ** Dictionaries *)

Lemma app_inj_suffix (s1 s2 suffix : string) :
  s1 +:+ suffix = s2 +:+ suffix → s1 = s2.
Proof.
  revert s2. induction s1 as [|c s1 IH]; intros [|d s2] Heq; simpl in *.
  - done.
  - apply (f_equal String.length) in Heq. simpl in Heq.
    rewrite !length_app in Heq. simpl in Heq. lia.
  - apply (f_equal String.length) in Heq. simpl in Heq.
    rewrite !length_app in Heq. simpl in Heq. lia.
  - injection Heq as -> Heq. f_equal. by apply IH.
Qed.

Lemma dict_update_lookup {V} (tags other : gmap string V) k :
  dict_update tags other !! k = other !! k ∪ tags !! k.
Proof. unfold dict_update. apply lookup_union. Qed.

Lemma dict_update_lookup_Some {V} (tags other : gmap string V) k v :
  other !! k = Some v → dict_update tags other !! k = Some v.
Proof. intros Hk. rewrite dict_update_lookup, Hk. by destruct (tags !! k). Qed.

Lemma dict_update_lookup_None {V} (tags other : gmap string V) k :
  other !! k = None → dict_update tags other !! k = tags !! k.
Proof. intros Hk. rewrite dict_update_lookup, Hk. by destruct (tags !! k). Qed.

(** ** The tags *)

Section TagFacts.
Context {python : Python} {server : backend.Backend}.
Import MLflowCallback.

Lemma shorten_item_other tags item tags' k :
  k ≠ item.1 → shorten_item tags item = Ok tags' → tags' !! k = tags !! k.
Proof.
  destruct item as [key v]. simpl. intros Hne. unfold shorten_item.
  destruct (_ <? _)%nat; [|by intros [= <-]].
  destruct (textwrap.shorten _ _); simpl; [|done].
  intros [= <-]. by rewrite lookup_insert_ne.
Qed.

Lemma shorten_item_same tags key v tags' :
  tags !! key = Some v → shorten_item tags (key, v) = Ok tags' →
  ∃ v', tags' !! key = Some v' ∧ left_as v v'.
Proof.
  intros Hkey. unfold shorten_item, left_as.
  destruct (_ <? _)%nat; [|intros [= <-]; eauto].
  destruct (textwrap.shorten _ _) as [short|]; simpl; [|done].
  intros [= <-]. rewrite lookup_insert_eq. eauto.
Qed.

Lemma for_each_shorten_other items tags tags' k :
  k ∉ items.*1 → for_each shorten_item tags items = Ok tags' →
  tags' !! k = tags !! k.
Proof.
  revert tags. induction items as [|item items IH]; intros tags Hk; simpl.
  - by intros [= <-].
  - apply not_elem_of_cons in Hk as [Hne Hk].
    destruct (shorten_item tags item) as [tags1|] eqn:Hitem; simpl; [|done].
    intros Hrest. rewrite (IH _ Hk Hrest). by eapply shorten_item_other.
Qed.

Lemma for_each_shorten_item items tags tags' k v :
  NoDup items.*1 → (k, v) ∈ items → tags !! k = Some v →
  for_each shorten_item tags items = Ok tags' →
  ∃ v', tags' !! k = Some v' ∧ left_as v v'.
Proof.
  revert tags. induction items as [|item items IH]; intros tags Hnodup Hin Hk; simpl.
  - by apply elem_of_nil in Hin.
  - apply NoDup_cons in Hnodup as [Hfresh Hnodup].
    destruct (shorten_item tags item) as [tags1|] eqn:Hitem; simpl; [|done].
    intros Hrest. apply elem_of_cons in Hin as [<-|Hin].
    + simpl in Hfresh.
      destruct (shorten_item_same _ _ _ _ Hk Hitem) as (v' & Hv' & Hleft).
      exists v'. split; [|done]. by rewrite (for_each_shorten_other _ _ _ _ Hfresh Hrest).
    + assert (k ≠ item.1).
      { intros ->. apply Hfresh. apply list_elem_of_fmap. by exists (item.1, v). }
      eapply IH; [done..| |done]. by rewrite (shorten_item_other _ _ _ _ ltac:(done) Hitem).
Qed.

Lemma for_each_shorten_returns items tags :
  (5 ≤ backend.MAX_TAG_VAL_LENGTH)%nat →
  ∃ tags', for_each shorten_item tags items = Ok tags'.
Proof.
  intros Hmax. revert tags. induction items as [|[key v] items IH]; intros tags; simpl.
  - eauto.
  - unfold shorten_item at 1. destruct (_ <? _)%nat; simpl; [|done].
    destruct (shorten_returns (py_str v) _ Hmax) as (short & -> & _). simpl. done.
Qed.

(** What the loop does to each item of the dictionary. *)
Lemma shorten_long_values_lookup tags tags' k :
  shorten_long_values tags = Ok tags' →
  match tags !! k with
  | Some v => ∃ v', tags' !! k = Some v' ∧ left_as v v'
  | None => tags' !! k = None
  end.
Proof.
  unfold shorten_long_values. intros Hloop.
  destruct (tags !! k) as [v|] eqn:Hk.
  - eapply for_each_shorten_item; [apply NoDup_fst_map_to_list| |done..].
    by apply elem_of_map_to_list.
  - rewrite <- Hk. eapply for_each_shorten_other; [|done].
    intros ([k' v] & -> & Hin%elem_of_map_to_list)%list_elem_of_fmap. simpl in *. congruence.
Qed.

Lemma shorten_long_values_returns tags :
  (5 ≤ backend.MAX_TAG_VAL_LENGTH)%nat →
  ∃ tags', shorten_long_values tags = Ok tags'.
Proof. apply for_each_shorten_returns. Qed.

(** The dictionary comprehension of line 227. *)
Lemma distribution_tags_lookup trial key v :
  distribution_tags trial !! key = Some v ↔
  ∃ k d, key = k +:+ "_distribution"
         ∧ FrozenTrial.distributions trial !! k = Some d
         ∧ v = PStr (distribution_repr d).
Proof.
  unfold distribution_tags.
  apply (map_fold_weak_ind (λ r (m : gmap string BaseDistribution),
    r !! key = Some v ↔
    ∃ k d, key = k +:+ "_distribution" ∧ m !! k = Some d ∧ v = PStr (distribution_repr d))).
  - rewrite lookup_empty. split; [done|]. intros (k & d & _ & Hk & _).
    by rewrite lookup_empty in Hk.
  - intros i x m r Hi IH. destruct (decide (key = i +:+ "_distribution")) as [->|Hne].
    + rewrite lookup_insert_eq. split.
      * intros [= <-]. exists i, x. by rewrite lookup_insert_eq.
      * intros (k & d & ->%app_inj_suffix & Hk & ->).
        rewrite lookup_insert_eq in Hk. congruence.
    + rewrite lookup_insert_ne by done. rewrite IH. split.
      * intros (k & d & -> & Hk & ->). exists k, d.
        rewrite lookup_insert_ne; [done|]. congruence.
      * intros (k & d & -> & Hk & ->). exists k, d.
        rewrite lookup_insert_ne in Hk; [done|]. congruence.
Qed.

(** A key that does not end in [_distribution] is no distribution tag. *)
Lemma distribution_tags_None trial key :
  (∀ k, key ≠ k +:+ "_distribution") → distribution_tags trial !! key = None.
Proof.
  intros Hkey. destruct (distribution_tags trial !! key) as [v|] eqn:Hv; [|done].
  apply distribution_tags_lookup in Hv as (k & d & -> & _). by destruct (Hkey k).
Qed.

End TagFacts.

(** ** The tracking client *)

Section ClientFacts.
Context {python : Python} {server : backend.Backend}.
Import MLflowCallback.

Lemma end_run_closed status w : mlflow.end_run status w = (Ok (), closed status w).
Proof.
  unfold mlflow.end_run, closed, active_stack. unfold_monad.
  destruct w as [st sto]. simpl. by destruct (backend._active_run_stack st).
Qed.

Lemma get_or_start_run_active w run_id stack :
  active_stack w = run_id :: stack → mlflow._get_or_start_run w = (Ok run_id, w).
Proof.
  unfold mlflow._get_or_start_run, active_stack. unfold_monad. by intros ->.
Qed.

Lemma log_metric_active key v w run_id stack :
  active_stack w = run_id :: stack →
  mlflow.log_metric key v w =
    if backend.rejects (backend.LogMetric key v) (tracking w)
    then (Raise MlflowException, w)
    else (Ok (), update_run (backend.add_metric key v) run_id w).
Proof.
  intros Hstack. unfold mlflow.log_metric.
  unfold mbind at 1, M_bind, mlflow.request. destruct (backend.rejects _ _); [done|].
  unfold mbind, M_bind. by rewrite (get_or_start_run_active _ _ _ Hstack).
Qed.

Lemma log_params_active params w run_id stack :
  active_stack w = run_id :: stack →
  mlflow.log_params params w =
    if backend.rejects (backend.LogParams params) (tracking w)
    then (Raise MlflowException, w)
    else (Ok (), update_run (backend.add_params params) run_id w).
Proof.
  intros Hstack. unfold mlflow.log_params.
  unfold mbind at 1, M_bind, mlflow.request. destruct (backend.rejects _ _); [done|].
  unfold mbind, M_bind. by rewrite (get_or_start_run_active _ _ _ Hstack).
Qed.

Lemma set_tags_active tags w run_id stack :
  active_stack w = run_id :: stack →
  mlflow.set_tags tags w =
    if backend.rejects (backend.SetTags tags) (tracking w)
    then (Raise MlflowException, w)
    else (Ok (), update_run (backend.add_tags tags) run_id w).
Proof.
  intros Hstack. unfold mlflow.set_tags.
  unfold mbind at 1, M_bind, mlflow.request. destruct (backend.rejects _ _); [done|].
  unfold mbind, M_bind. by rewrite (get_or_start_run_active _ _ _ Hstack).
Qed.

Lemma update_run_stack f run_id w : active_stack (update_run f run_id w) = active_stack w.
Proof. done. Qed.

Lemma update_run_storage f run_id w : storage (update_run f run_id w) = storage w.
Proof. done. Qed.

Lemma update_run_store f run_id w :
  run_store (update_run f run_id w) = alter f run_id (run_store w).
Proof. done. Qed.

Lemma update_run_dom f run_id w :
  dom (run_store (update_run f run_id w)) = dom (run_store w).
Proof. rewrite update_run_store. apply dom_alter_L. Qed.

(** What [start_run] does: it raises and changes nothing, or it opens a run
    on top of the stack. *)
Lemma start_run_spec run_id run_name nested w o w' :
  mlflow.start_run run_id run_name nested w = (o, w') →
  match o with
  | Raise e => e = MlflowException ∧ w' = w
  | Ok run =>
      active_stack w' = mlflow.info_run_id run :: active_stack w
      ∧ storage w' = storage w
      ∧ backend.experiments (tracking w') = backend.experiments (tracking w)
      ∧ backend.active_experiment (tracking w') = backend.active_experiment (tracking w)
      ∧ backend.rejects (backend.StartRun run_id run_name nested) (tracking w) = false
      ∧ (active_stack w = [] ∨ nested = true)
      ∧ opened run_id run_name w w' (mlflow.info_run_id run)
  end.
Proof.
  unfold mlflow.start_run. unfold_monad.
  destruct (backend.rejects _ _) eqn:Hrej; [by intros [= <- <-]|].
  destruct (negb _ && negb _) eqn:Hnest; [by intros [= <- <-]|].
  assert (active_stack w = [] ∨ nested = true) as Hwhere.
  { apply andb_false_iff in Hnest as [Hs%negb_false_iff|Hn%negb_false_iff]; [left|by right].
    by apply bool_decide_eq_true in Hs. }
  destruct run_id as [[]|]; try by intros [= <- <-].
  - intros [= <- <-]. simpl. repeat split; try done.
    apply opened_created; [by right|done|done].
  - destruct (backend.runs (tracking w) !! s) as [r|] eqn:Hrun; [|by intros [= <- <-]].
    intros [= <- <-]. simpl. repeat split; try done.
    eapply opened_resumed; [done..|]. unfold run_store. simpl.
    apply map_eq. intros k. rewrite lookup_alter, lookup_insert.
    destruct (decide (s = k)) as [<-|]; [by rewrite Hrun|done].
  - intros [= <- <-]. simpl. repeat split; try done.
    apply opened_created; [by left|done|done].
Qed.

Lemma opened_dom run_id run_name w w' new_id :
  opened run_id run_name w w' new_id →
  dom (run_store w') = {[new_id]} ∪ dom (run_store w) ∧ new_id ∈ dom (run_store w').
Proof.
  intros [r _ Hr ->|_ _ ->]; rewrite dom_insert_L; split; set_solver.
Qed.


Lemma opened_running run_id run_name w w' new_id :
  opened run_id run_name w w' new_id →
  ∃ r, run_store w' !! new_id = Some r ∧ backend.run_status r = RunStatus.RUNNING.
Proof.
  intros [r _ _ ->|_ _ ->]; rewrite lookup_insert_eq; eauto.
Qed.

End ClientFacts.

(** ** The callback *)

Section CallbackFacts.
Context {python : Python} {server : backend.Backend}.
Import MLflowCallback.

Lemma closed_active status w run_id stack :
  active_stack w = run_id :: stack →
  active_stack (closed status w) = stack
  ∧ storage (closed status w) = storage w
  ∧ run_store (closed status w) = alter (backend.set_status status) run_id (run_store w).
Proof. unfold closed. by intros ->. Qed.

Lemma initialize_experiment_spec self study w o w' :
  _initialize_experiment self study w = (o, w') →
  run_store w' = run_store w ∧ active_stack w' = active_stack w
  ∧ storage w' = storage w
  ∧ match o with
    | Ok _ =>
        backend.active_experiment (tracking w') = Some (Study.study_name study)
        ∧ Study.study_name study ∈ backend.experiments (tracking w')
    | Raise e => e = MlflowException
    end.
Proof.
  unfold _initialize_experiment, mlflow.set_tracking_uri, mlflow.set_experiment,
    mlflow.request, modify_tracking, mbind, M_bind, mret, M_ret.
  destruct (_tracking_uri self) as [uri|]; simpl;
    repeat (destruct (backend.rejects _ _); simpl);
    intros [= <- <-]; simpl; repeat split; try done; set_solver.
Qed.

(** The three calls inside the [with] of [__call__], with a run active:
    they write to that run and to nothing else. *)
Lemma record_body_spec self study trial w run_id stack o w' :
  active_stack w = run_id :: stack →
  (_log_metric self (FrozenTrial.value trial);;
   _log_params trial;;
   _set_tags self trial study) w = (o, w') →
  active_stack w' = run_id :: stack ∧ storage w' = storage w
  ∧ dom (run_store w') = dom (run_store w)
  ∧ (∀ k, k ≠ run_id → run_store w' !! k = run_store w !! k)
  ∧ match o with
    | Ok _ =>
        ∃ tags, final_tags self trial study = Ok tags
          ∧ w' = update_run (backend.add_tags tags) run_id
                   (update_run (backend.add_params (FrozenTrial.params trial)) run_id
                      (update_run
                         (backend.add_metric (_metric_name self)
                            (if FrozenTrial.value trial is Some v then v else nan))
                         run_id w))
    | Raise _ => True
    end.
Proof.
  intros Hstack. unfold _log_metric, _log_params, _set_tags.
  unfold mbind at 1, M_bind. rewrite (log_metric_active _ _ _ _ _ Hstack).
  destruct (backend.rejects _ _); [by intros [= <- <-]|].
  set (w1 := update_run _ run_id w).
  unfold mbind at 1, M_bind. rewrite (log_params_active _ w1 run_id stack) by done.
  destruct (backend.rejects _ _).
  { intros [= <- <-]. repeat split; try done.
    - apply update_run_dom.
    - intros k Hk. subst w1. rewrite update_run_store. by apply lookup_alter_ne. }
  set (w2 := update_run _ run_id w1).
  assert (Hdom : dom (run_store w2) = dom (run_store w))
    by (subst w2 w1; by rewrite !update_run_dom).
  assert (Hother : ∀ k, k ≠ run_id → run_store w2 !! k = run_store w !! k).
  { intros k Hk. subst w2 w1. rewrite !update_run_store.
    by rewrite !lookup_alter_ne. }
  unfold mbind, M_bind, lift. destruct (final_tags self trial study) as [tags|e].
  - rewrite (set_tags_active _ w2 run_id stack) by done.
    destruct (backend.rejects _ _); intros [= <- <-]; [done|].
    repeat split; try done.
    + by rewrite update_run_dom.
    + intros k Hk. rewrite update_run_store, lookup_alter_ne by done. by apply Hother.
    + by exists tags.
  - by intros [= <- <-].
Qed.

(** When [__call__] returns: the experiment was selected, a run was opened,
    the metric, the parameters and the final tags were written to it, in
    that order, and it was closed as finished. *)
Lemma call_returns self study trial w w' :
  __call__ self study trial w = (Ok (), w') →
  ∃ w1 w2 run_id tags,
    _initialize_experiment self study w = (Ok (), w1)
    ∧ mlflow.start_run (FrozenTrial.system_attrs trial !! RUN_ID_ATTRIBUTE_KEY)
        (Some (py_str (PInt (FrozenTrial.number trial)))) (_nest_trials self) w1
      = (Ok {| mlflow.info_run_id := run_id |}, w2)
    ∧ final_tags self trial study = Ok tags
    ∧ w' = closed RunStatus.FINISHED
             (update_run (backend.add_tags tags) run_id
                (update_run (backend.add_params (FrozenTrial.params trial)) run_id
                   (update_run
                      (backend.add_metric (_metric_name self)
                         (if FrozenTrial.value trial is Some v then v else nan))
                      run_id w2))).
Proof.
  unfold __call__. unfold mbind at 1, M_bind.
  destruct (_initialize_experiment self study w) as [[[]|e] w1] eqn:Hinit; [|done].
  unfold mbind at 1, M_bind.
  destruct (mlflow.start_run _ _ _ w1) as [[[run_id]|e] w2] eqn:Hstart; [|done].
  pose proof (start_run_spec _ _ _ _ _ _ Hstart) as (Hstack & _). simpl in Hstack.
  unfold mbind at 1, M_bind, mlflow.with_run.
  destruct ((_log_metric _ _;; _) w2) as [[[]|e] w3] eqn:Hbody.
  - apply record_body_spec with (run_id := run_id) (stack := active_stack w1) in Hbody
      as (_ & _ & _ & _ & tags & Htags & ->); [|done].
    unfold mlflow.__exit__. unfold mbind, M_bind, mret, M_ret.
    rewrite end_run_closed. intros [= <-]. by exists w1, w2, run_id, tags.
  - unfold mlflow.__exit__. unfold mbind, M_bind, mret, M_ret, raise.
    rewrite end_run_closed. simpl. done.
Qed.

(** However [__call__] ends, it leaves the storage and the stack of active
    runs as it found them; and either it opened no run and the runs are as
    they were, or the run it opened is closed: finished when the call
    returns, failed when it raises. *)
Lemma call_frame self study trial w o w' :
  __call__ self study trial w = (o, w') →
  storage w' = storage w ∧ active_stack w' = active_stack w
  ∧ (run_store w' = run_store w ∧ o = Raise MlflowException
     ∨ ∃ w1 w2 run_id r,
         _initialize_experiment self study w = (Ok (), w1)
         ∧ mlflow.start_run (FrozenTrial.system_attrs trial !! RUN_ID_ATTRIBUTE_KEY)
             (Some (py_str (PInt (FrozenTrial.number trial)))) (_nest_trials self) w1
           = (Ok {| mlflow.info_run_id := run_id |}, w2)
         ∧ dom (run_store w') = dom (run_store w2)
         ∧ (∀ k, k ≠ run_id → run_store w' !! k = run_store w2 !! k)
         ∧ run_store w' !! run_id = Some r
         ∧ backend.run_status r
           = if o is Ok _ then RunStatus.FINISHED else RunStatus.FAILED).
Proof.
  unfold __call__. unfold mbind at 1, M_bind.
  destruct (_initialize_experiment self study w) as [[[]|e] w1] eqn:Hinit;
    pose proof (initialize_experiment_spec _ _ _ _ _ Hinit) as (Hr1 & Hs1 & Ht1 & Hi1).
  2:{ intros [= <- <-]. subst e. repeat split; try done. by left. }
  unfold mbind at 1, M_bind.
  destruct (mlflow.start_run _ _ _ w1) as [[[run_id]|e] w2] eqn:Hstart;
    pose proof (start_run_spec _ _ _ _ _ _ Hstart) as Hspec.
  2:{ destruct Hspec as [-> ->]. intros [= <- <-]. repeat split; try done. by left. }
  destruct Hspec as (Hs2 & Ht2 & _ & _ & _ & _ & Hopen). simpl in Hs2, Hopen.
  destruct (opened_running _ _ _ _ _ Hopen) as (r2 & Hr2 & _).
  unfold mbind at 1, M_bind, mlflow.with_run.
  destruct ((_log_metric _ _;; _) w2) as [[[]|e] w3] eqn:Hbody;
    apply record_body_spec with (run_id := run_id) (stack := active_stack w1) in Hbody
      as (Hs3 & Ht3 & Hd3 & Ho3 & _); try done;
    destruct (closed_active RunStatus.FINISHED w3 _ _ Hs3) as (Hs4 & Ht4 & Hr4);
    destruct (closed_active RunStatus.FAILED w3 _ _ Hs3) as (Hs5 & Ht5 & Hr5);
    assert (is_Some (run_store w3 !! run_id)) as [r3 Hr3]
      by (apply elem_of_dom; rewrite Hd3; by apply elem_of_dom);
    unfold mlflow.__exit__; unfold mbind, M_bind, mret, M_ret, raise;
    rewrite end_run_closed; simpl; intros [= <- <-].
  - split; [congruence|]. split; [congruence|]. right.
    exists w1, w2, run_id, (backend.set_status RunStatus.FINISHED r3).
    repeat split; try done.
    + by rewrite Hr4, dom_alter_L.
    + intros k Hk. rewrite Hr4, lookup_alter_ne by done. by apply Ho3.
    + by rewrite Hr4, lookup_alter_eq, Hr3.
  - split; [congruence|]. split; [congruence|]. right.
    exists w1, w2, run_id, (backend.set_status RunStatus.FAILED r3).
    repeat split; try done.
    + by rewrite Hr5, dom_alter_L.
    + intros k Hk. rewrite Hr5, lookup_alter_ne by done. by apply Ho3.
    + by rewrite Hr5, lookup_alter_eq, Hr3.
Qed.

End CallbackFacts.

(** ** The decorator *)

Section DecoratorFacts.
Context {python : Python} {server : backend.Backend}.
Import MLflowCallback.

(** The paths through [wrapper]: nothing is closed when no run was opened;
    once the run is open, [__exit__] closes it whether the attribute could
    not be written, the objective raised, or the objective returned. *)
Lemma wrapper_unfold self func trial w :
  wrapper self func trial w =
  match _initialize_experiment self (Trial.study trial) w with
  | (Raise e, w1) => (Raise e, w1)
  | (Ok _, w1) =>
      match mlflow.start_run None (Some (py_str (PInt (Trial.number trial))))
              (_nest_trials self) w1 with
      | (Raise e, w2) => (Raise e, w2)
      | (Ok run, w2) =>
          match set_system_attr trial RUN_ID_ATTRIBUTE_KEY
                  (PStr (mlflow.info_run_id run)) w2 with
          | (Raise e, w3) => (Raise e, closed RunStatus.FAILED w3)
          | (Ok _, w3) =>
              match func trial w3 with
              | (Ok v, w4) => (Ok v, closed RunStatus.FINISHED w4)
              | (Raise e, w4) => (Raise e, closed RunStatus.FAILED w4)
              end
          end
      end
  end.
Proof.
  unfold wrapper. unfold mbind at 1, M_bind.
  destruct (_initialize_experiment _ _ w) as [[[]|e] w1]; [|done].
  unfold mbind at 1, M_bind.
  destruct (mlflow.start_run _ _ _ w1) as [[run|e] w2]; [|done].
  unfold mbind at 1, M_bind, mlflow.with_run.
  unfold mbind at 1, M_bind.
  destruct (set_system_attr _ _ _ w2) as [[[]|e] w3].
  - destruct (func trial w3) as [[v|e] w4];
      unfold mlflow.__exit__; unfold mbind, M_bind, mret, M_ret, raise;
      by rewrite end_run_closed.
  - unfold mlflow.__exit__; unfold mbind, M_bind, mret, M_ret, raise.
    by rewrite end_run_closed.
Qed.

(** Writing the attribute changes the trial's record and nothing else. *)
Lemma set_system_attr_spec trial key v w o w' :
  set_system_attr trial key v w = (o, w') →
  tracking w' = tracking w
  ∧ match o with
    | Ok _ =>
        ∃ record, storage w !! Trial._trial_id trial = Some record
          ∧ storage w' = <[Trial._trial_id trial :=
                           FrozenTrial.with_system_attr key v record]> (storage w)
    | Raise e => e = KeyError ∧ w' = w
    end.
Proof.
  unfold set_system_attr. destruct (storage w !! _) as [record|];
    intros [= <- <-]; simpl; eauto.
Qed.

End DecoratorFacts.

(** ** The final tags *)

Section FinalTagFacts.
Context {python : Python} {server : backend.Backend}.
Import MLflowCallback.

Lemma left_as_short v v' :
  (String.length (py_str v) ≤ backend.MAX_TAG_VAL_LENGTH)%nat → left_as v v' → v' = v.
Proof.
  unfold left_as. intros Hle. by destruct (Nat.ltb_spec backend.MAX_TAG_VAL_LENGTH
    (String.length (py_str v))); [lia|].
Qed.

Lemma left_as_long v v' :
  (backend.MAX_TAG_VAL_LENGTH < String.length (py_str v))%nat → left_as v v' →
  ∃ short, v' = PStr short ∧ (String.length short ≤ backend.MAX_TAG_VAL_LENGTH)%nat.
Proof.
  unfold left_as. intros Hlt. destruct (Nat.ltb_spec backend.MAX_TAG_VAL_LENGTH
    (String.length (py_str v))); [|lia].
  intros (short & Hshort%shorten_fits & ->). eauto.
Qed.

(** A key shorter than the suffix is no distribution tag. *)
Lemma short_key_no_distribution key k :
  (String.length key < 13)%nat → key ≠ k +:+ "_distribution".
Proof.
  intros Hlen ->. rewrite length_app in Hlen. simpl in Hlen. lia.
Qed.

Lemma enum_name_of_state s :
  Str.last_item (Str.split "." (py_str (PTrialState s))) = TrialState.name s.
Proof. by destruct s. Qed.

Lemma enum_name_of_direction d :
  Str.last_item (Str.split "." (py_str (PStudyDirection d))) = StudyDirection.name d.
Proof. by destruct d. Qed.

Lemma base_tags_number trial study :
  base_tags trial study !! "number"
  = Some (PStr (py_str (PInt (FrozenTrial.number trial)))).
Proof. unfold base_tags. repeat case_match; by simplify_map_eq. Qed.

Lemma base_tags_state trial study :
  base_tags trial study !! "state"
  = match FrozenTrial.state trial with
    | PTrialState s =>
        if TrialState.is_finished s then Some (PStr (TrialState.name s)) else None
    | _ => None
    end.
Proof.
  unfold base_tags.
  destruct (FrozenTrial.state trial) as [| | | | | |s|];
    try destruct (TrialState.is_finished s) eqn:Hfin;
    destruct (Study.direction study); simplify_map_eq; try done;
    by destruct s.
Qed.

Lemma base_tags_direction trial study :
  base_tags trial study !! "direction"
  = match Study.direction study with
    | PStudyDirection d => Some (PStr (StudyDirection.name d))
    | _ => None
    end.
Proof.
  unfold base_tags.
  destruct (FrozenTrial.state trial) as [|?|?|?|?|?|s|?];
    try destruct (TrialState.is_finished s) eqn:Hfin;
    destruct (Study.direction study) as [|?|?|?|?|?|?|dir]; simplify_map_eq; try done;
    by destruct dir.
Qed.

(** The keys that lines 210 to 224 can set. *)
Lemma base_tags_keys trial study key :
  is_Some (base_tags trial study !! key) →
  key ∈ ["number"; "datetime_start"; "datetime_complete"; "state"; "direction"].
Proof.
  unfold base_tags. intros [v Hv]. revert Hv.
  repeat case_match; rewrite ?lookup_insert; repeat case_decide; subst;
    rewrite ?lookup_empty; intros ?; simplify_eq; set_solver.
Qed.

(** The order of the three updates. On options, [o1 ∪ o2] is [o1] when it
    is some value and [o2] otherwise. *)
Lemma merged_tags_lookup self trial study key :
  merged_tags self trial study !! key
  = (if _tag_study_user_attrs self then Study.user_attrs study !! key else None)
    ∪ (distribution_tags trial !! key
       ∪ (FrozenTrial.user_attrs trial !! key ∪ base_tags trial study !! key)).
Proof.
  unfold merged_tags. destruct (_tag_study_user_attrs self).
  - by rewrite !dict_update_lookup.
  - rewrite !dict_update_lookup. by destruct (_ ∪ (_ ∪ _)).
Qed.

(** A key that no update touches keeps the value lines 210 to 224 gave it,
    as the loop leaves it. *)
Lemma final_tags_not_overridden self trial study tags key :
  final_tags self trial study = Ok tags →
  (∀ k, key ≠ k +:+ "_distribution") →
  FrozenTrial.user_attrs trial !! key = None →
  (_tag_study_user_attrs self = true → Study.user_attrs study !! key = None) →
  match base_tags trial study !! key with
  | Some v => ∃ v', tags !! key = Some v' ∧ left_as v v'
  | None => tags !! key = None
  end.
Proof.
  intros Hfinal Hkey Htrial Hstudy.
  pose proof (shorten_long_values_lookup _ _ key Hfinal) as Hloop.
  rewrite merged_tags_lookup, (distribution_tags_None _ _ Hkey), Htrial in Hloop.
  destruct (_tag_study_user_attrs self); [rewrite Hstudy in Hloop by done|];
    by destruct (base_tags trial study !! key).
Qed.

End FinalTagFacts.

(** ** What [__call__] wrote when it returns *)

Section RecordFacts.
Context {python : Python} {server : backend.Backend}.
Import MLflowCallback.

(** When [__call__] returns, the run it opened holds the metric, the
    parameters and the final tags on top of what it held when it was
    opened, and is finished; the other runs are as they were. *)
Lemma call_returns_run self study trial w w' :
  __call__ self study trial w = (Ok (), w') →
  ∃ w1 w2 run_id r tags,
    _initialize_experiment self study w = (Ok (), w1)
    ∧ mlflow.start_run (FrozenTrial.system_attrs trial !! RUN_ID_ATTRIBUTE_KEY)
        (Some (py_str (PInt (FrozenTrial.number trial)))) (_nest_trials self) w1
      = (Ok {| mlflow.info_run_id := run_id |}, w2)
    ∧ final_tags self trial study = Ok tags
    ∧ run_store w2 !! run_id = Some r
    ∧ run_store w' !! run_id
      = Some (backend.set_status RunStatus.FINISHED
                (backend.add_tags tags
                   (backend.add_params (FrozenTrial.params trial)
                      (backend.add_metric (_metric_name self)
                         (if FrozenTrial.value trial is Some v then v else nan) r))))
    ∧ (∀ k, k ≠ run_id → run_store w' !! k = run_store w2 !! k)
    ∧ backend.experiments (tracking w') = backend.experiments (tracking w1)
    ∧ backend.active_experiment (tracking w') = backend.active_experiment (tracking w1).
Proof.
  intros (w1 & w2 & run_id & tags & Hinit & Hstart & Htags & ->)%call_returns.
  pose proof (start_run_spec _ _ _ _ _ _ Hstart) as (Hstack & _ & He & Ha & _ & _ & Hopen).
  simpl in Hstack, Hopen.
  destruct (opened_running _ _ _ _ _ Hopen) as (r & Hr & _).
  exists w1, w2, run_id, r, tags. repeat split; try done.
  - unfold closed. rewrite !update_run_stack, Hstack. unfold run_store. simpl.
    fold (run_store w2). by rewrite !lookup_alter_eq, Hr.
  - intros k Hk. unfold closed. rewrite !update_run_stack, Hstack. unfold run_store. simpl.
    fold (run_store w2). by rewrite !lookup_alter_ne.
  - unfold closed. by rewrite !update_run_stack, Hstack.
  - unfold closed. by rewrite !update_run_stack, Hstack.
Qed.

(** With a backend that refuses nothing, [__call__] returns as soon as the
    experiment is selected, the run is opened and the tags are built. *)
Lemma call_accepted self study trial w w1 w2 run_id tags :
  (∀ c st, backend.rejects c st = false) →
  _initialize_experiment self study w = (Ok (), w1) →
  mlflow.start_run (FrozenTrial.system_attrs trial !! RUN_ID_ATTRIBUTE_KEY)
    (Some (py_str (PInt (FrozenTrial.number trial)))) (_nest_trials self) w1
    = (Ok {| mlflow.info_run_id := run_id |}, w2) →
  final_tags self trial study = Ok tags →
  __call__ self study trial w
  = (Ok (),
     closed RunStatus.FINISHED
       (update_run (backend.add_tags tags) run_id
          (update_run (backend.add_params (FrozenTrial.params trial)) run_id
             (update_run
                (backend.add_metric (_metric_name self)
                   (if FrozenTrial.value trial is Some v then v else nan))
                run_id w2)))).
Proof.
  intros Hacc Hinit Hstart Htags.
  pose proof (start_run_spec _ _ _ _ _ _ Hstart) as (Hstack & _). simpl in Hstack.
  unfold __call__. unfold mbind at 1, M_bind. rewrite Hinit.
  unfold mbind at 1, M_bind. rewrite Hstart.
  unfold mbind at 1, M_bind, mlflow.with_run.
  unfold _log_metric, _log_params, _set_tags.
  unfold mbind at 1, M_bind. rewrite (log_metric_active _ _ _ _ _ Hstack), Hacc.
  unfold mbind at 1, M_bind.
  rewrite (log_params_active _ _ run_id (active_stack w1)), Hacc by done.
  unfold mbind at 1, M_bind, lift. rewrite Htags.
  rewrite (set_tags_active _ _ run_id (active_stack w1)), Hacc by done.
  unfold mlflow.__exit__. unfold mbind, M_bind, mret, M_ret.
  by rewrite end_run_closed.
Qed.

End RecordFacts.

(** * The claims *)

Section Claims.
Context {python : Python} {server : backend.Backend}.
Import MLflowCallback.

(** C1. When [__call__] (the spec's [record]) returns, the last metric of
    the run it wrote to is the pair of the configured metric name and the
    trial's value, or NaN when the trial has no value. And a missing value
    raises no error: with a run active, [_log_metric] on no value returns
    unless the backend refuses the NaN metric. *)
Theorem record_logs_value self study trial w :
  (∀ w', __call__ self study trial w = (Ok (), w') →
     ∃ run_id r,
       run_store w' !! run_id = Some r
       ∧ last (backend.run_metrics r)
         = Some (_metric_name self,
                 match FrozenTrial.value trial with Some v => v | None => S754_nan end))
  ∧ (∀ run_id stack,
       active_stack w = run_id :: stack →
       backend.rejects (backend.LogMetric (_metric_name self) S754_nan) (tracking w) = false →
       _log_metric self None w
       = (Ok (), update_run (backend.add_metric (_metric_name self) S754_nan) run_id w)).
Proof.
  split.
  - intros w' (w1 & w2 & run_id & r & tags & _ & _ & _ & _ & Hrun & _)%call_returns_run.
    eexists run_id, _. split; [done|]. simpl. by rewrite last_snoc.
  - intros run_id stack Hstack Hacc. unfold _log_metric, nan.
    by rewrite (log_metric_active _ _ _ _ _ Hstack), Hacc.
Qed.





(** C3. In the dictionary [_set_tags] builds, a key takes its value from the
    strongest source that has it: the study's user attributes when the
    study-tagging flag is set, then the distribution tags, named
    [<param>_distribution], then the trial's user attributes, then the base
    tags (number, dates, state, direction). On options, [o1 ∪ o2] is [o1]
    when it is some value and [o2] otherwise. In particular a study user
    attribute replaces a distribution tag of its key, and the final
    dictionary holds the merged value of every key, as the shortening loop
    leaves it. *)
Theorem tag_sources_precedence self trial study key :
  merged_tags self trial study !! key
  = (if _tag_study_user_attrs self then Study.user_attrs study !! key else None)
    ∪ (distribution_tags trial !! key
       ∪ (FrozenTrial.user_attrs trial !! key ∪ base_tags trial study !! key))
  ∧ (∀ param,
       distribution_tags trial !! (param +:+ "_distribution")
       = (λ d, PStr (distribution_repr d)) <$> FrozenTrial.distributions trial !! param)
  ∧ (is_Some (base_tags trial study !! key) →
     key ∈ ["number"; "datetime_start"; "datetime_complete"; "state"; "direction"])
  ∧ (∀ v, _tag_study_user_attrs self = true →
          Study.user_attrs study !! key = Some v →
          merged_tags self trial study !! key = Some v)
  ∧ (∀ tags, final_tags self trial study = Ok tags →
       match merged_tags self trial study !! key with
       | Some v => ∃ v', tags !! key = Some v' ∧ left_as v v'
       | None => tags !! key = None
       end).
Proof.
  split; [apply merged_tags_lookup|]. split; [|split; [|split]].
  - intros param.
    destruct (FrozenTrial.distributions trial !! param) as [d|] eqn:Hparam; simpl.
    + apply distribution_tags_lookup. eauto.
    + destruct (distribution_tags trial !! _) as [v|] eqn:Hv; [|done].
      apply distribution_tags_lookup in Hv as (k & d & ->%app_inj_suffix & Hk & _).
      congruence.
  - apply base_tags_keys.
  - intros v Hflag Hstudy. rewrite merged_tags_lookup, Hflag, Hstudy.
    by destruct (distribution_tags trial !! key ∪ _).
  - intros tags Hfinal. by apply shorten_long_values_lookup.
Qed.

(** C4 fails on the code: line 239 converts the value to text, but line 241
    stores the text only when it is too long. A value whose text fits stays
    in the dictionary as the object it was, so a user attribute that is no
    text reaches [mlflow.set_tags] as it is. *)
Theorem short_values_keep_their_type self trial study tags key v :
  final_tags self trial study = Ok tags →
  merged_tags self trial study !! key = Some v →
  (String.length (py_str v) ≤ backend.MAX_TAG_VAL_LENGTH)%nat →
  is_str v = false →
  ∃ v', tags !! key = Some v' ∧ is_str v' = false.
Proof.
  intros Hfinal Hkey Hshort Hobject.
  pose proof (shorten_long_values_lookup _ _ key Hfinal) as Hloop.
  rewrite Hkey in Hloop. destruct Hloop as (v' & Hv' & ->%left_as_short); eauto.
Qed.

(** C5, amended. The final dictionary always has the key [number]; its
    value is [str(trial.number)] when neither the trial's user attributes
    nor, with the study-tagging flag set, the study's user attributes have
    that key, and [str(trial.number)] is no longer than the maximum tag
    length. *)
Theorem number_tag_unless_overridden self trial study tags :
  final_tags self trial study = Ok tags →
  is_Some (tags !! "number")
  ∧ (FrozenTrial.user_attrs trial !! "number" = None →
     (_tag_study_user_attrs self = true → Study.user_attrs study !! "number" = None) →
     (String.length (py_str (PInt (FrozenTrial.number trial)))
      ≤ backend.MAX_TAG_VAL_LENGTH)%nat →
     tags !! "number" = Some (PStr (py_str (PInt (FrozenTrial.number trial))))).
Proof.
  intros Hfinal. split.
  - pose proof (shorten_long_values_lookup _ _ "number" Hfinal) as Hloop.
    rewrite merged_tags_lookup, base_tags_number in Hloop.
    destruct (_ ∪ (_ ∪ _)) as [v|] eqn:Hv.
    + destruct Hloop as (v' & Hv' & _). by eapply mk_is_Some.
    + destruct (if _tag_study_user_attrs self then _ else _),
        (distribution_tags trial !! "number"),
        (FrozenTrial.user_attrs trial !! "number"); done.
  - intros Htrial Hstudy Hshort.
    assert (Hsuffix : ∀ k, "number" ≠ k +:+ "_distribution")
      by (intros k; apply short_key_no_distribution; simpl; lia).
    pose proof (final_tags_not_overridden self trial study tags "number"
                  Hfinal Hsuffix Htrial Hstudy) as Hbase.
    rewrite base_tags_number in Hbase.
    by destruct Hbase as (v' & Hv' & ->%left_as_short).
Qed.

(** C6. Whenever [_set_tags] gets as far as [mlflow.set_tags], a value
    whose text is longer than [MAX_TAG_VAL_LENGTH] has been replaced by a
    text of at most that length, and a value whose text fits is the value
    the dictionary held, unchanged. And it does get that far, without an
    error, as soon as the limit leaves room for the placeholder (five
    characters). *)
Theorem long_values_are_shortened self trial study :
  (∀ tags key v,
     final_tags self trial study = Ok tags →
     merged_tags self trial study !! key = Some v →
     ((backend.MAX_TAG_VAL_LENGTH < String.length (py_str v))%nat →
      ∃ short, tags !! key = Some (PStr short)
        ∧ (String.length short ≤ backend.MAX_TAG_VAL_LENGTH)%nat)
     ∧ ((String.length (py_str v) ≤ backend.MAX_TAG_VAL_LENGTH)%nat →
        tags !! key = Some v))
  ∧ ((5 ≤ backend.MAX_TAG_VAL_LENGTH)%nat →
     ∃ tags, final_tags self trial study = Ok tags).
Proof.
  split.
  - intros tags key v Hfinal Hkey.
    pose proof (shorten_long_values_lookup _ _ key Hfinal) as Hloop.
    rewrite Hkey in Hloop. destruct Hloop as (v' & Hv' & Hleft). split.
    + intros Hlong. destruct (left_as_long _ _ Hlong Hleft) as (short & -> & Hfit). eauto.
    + intros Hshort. by rewrite (left_as_short _ _ Hshort Hleft) in Hv'.
  - apply shorten_long_values_returns.
Qed.

(** C7, amended. Lines 216 to 224 set the tag [state] exactly when the
    trial's state is a [TrialState] and is finished (complete, pruned or
    failed), and the tag [direction] exactly when the study's direction is
    a [StudyDirection]; the value is the member's name, which is the text
    of the member without the class prefix. A state or direction of another
    class sets no tag and raises nothing: the lines are a total function.
    The dictionary that reaches [mlflow.set_tags] has the tag under these
    conditions, with this value, and lacks it otherwise, when no user
    attribute of the trial, nor of the study for a callback that copies
    them, has the key, and the limit leaves room for the eight characters
    of the longest name. *)
Theorem state_and_direction_tags trial study :
  base_tags trial study !! "state"
  = match FrozenTrial.state trial with
    | PTrialState s =>
        if TrialState.is_finished s then Some (PStr (TrialState.name s)) else None
    | _ => None
    end
  ∧ base_tags trial study !! "direction"
    = match Study.direction study with
      | PStudyDirection d => Some (PStr (StudyDirection.name d))
      | _ => None
      end
  ∧ (∀ s, py_str (PTrialState s) = "TrialState." +:+ TrialState.name s
          ∧ Str.last_item (Str.split "." (py_str (PTrialState s))) = TrialState.name s
          ∧ (TrialState.is_finished s = true
             ↔ s = TrialState.COMPLETE ∨ s = TrialState.PRUNED ∨ s = TrialState.FAIL))
  ∧ (∀ d, py_str (PStudyDirection d) = "StudyDirection." +:+ StudyDirection.name d
          ∧ Str.last_item (Str.split "." (py_str (PStudyDirection d)))
            = StudyDirection.name d)
  ∧ (∀ self tags,
       final_tags self trial study = Ok tags →
       (8 ≤ backend.MAX_TAG_VAL_LENGTH)%nat →
       (FrozenTrial.user_attrs trial !! "state" = None →
        (_tag_study_user_attrs self = true → Study.user_attrs study !! "state" = None) →
        tags !! "state"
        = match FrozenTrial.state trial with
          | PTrialState s =>
              if TrialState.is_finished s then Some (PStr (TrialState.name s)) else None
          | _ => None
          end)
       ∧ (FrozenTrial.user_attrs trial !! "direction" = None →
          (_tag_study_user_attrs self = true →
           Study.user_attrs study !! "direction" = None) →
          tags !! "direction"
          = match Study.direction study with
            | PStudyDirection d => Some (PStr (StudyDirection.name d))
            | _ => None
            end)).
Proof.
  split; [apply base_tags_state|]. split; [apply base_tags_direction|].
  split; [|split].
  - intros s. split; [done|]. split; [apply enum_name_of_state|].
    destruct s; simpl; split; first [done | by auto | by intros [?|[?|?]]].
  - intros d. split; [done|]. apply enum_name_of_direction.
  - intros self tags Hfinal Hmax.
    assert (Hwritten : ∀ key,
              key = "state" ∨ key = "direction" →
              FrozenTrial.user_attrs trial !! key = None →
              (_tag_study_user_attrs self = true → Study.user_attrs study !! key = None) →
              tags !! key = base_tags trial study !! key).
    { intros key Hkey Htrial Hstudy.
      pose proof (final_tags_not_overridden self trial study tags key Hfinal) as Hbase.
      assert (Hsuffix : ∀ k, key ≠ k +:+ "_distribution").
      { intros k. apply short_key_no_distribution. destruct Hkey as [->| ->]; simpl; lia. }
      specialize (Hbase Hsuffix Htrial Hstudy).
      destruct (base_tags trial study !! key) as [v|] eqn:Hv; [|done].
      destruct Hbase as (v' & Hv' & Hleft). rewrite Hv'. f_equal.
      apply (left_as_short _ _) in Hleft; [done|].
      destruct Hkey as [->| ->].
      + rewrite base_tags_state in Hv. repeat case_match; simplify_eq.
        by destruct s; simpl; lia.
      + rewrite base_tags_direction in Hv. repeat case_match; simplify_eq.
        by destruct d; simpl; lia. }
    split.
    + intros Htrial Hstudy.
      rewrite (Hwritten "state"); [apply base_tags_state|by left|done|done].
    + intros Htrial Hstudy.
      rewrite (Hwritten "direction"); [apply base_tags_direction|by right|done|done].
Qed.

(** C8, amended. [__call__] closes the run it opened on every path: however
    it ends, the stack of active runs is as it found it, and either no run
    was opened (the runs are untouched) or the run it opened is closed:
    finished when the call returns, failed when the metric, the parameters
    or the tags raised. In the wrapper, once the run is open, [__exit__]
    runs whether the attribute could not be written, the objective raised
    or it returned: the wrapper leaves the world [end_run] makes of the one
    the objective left. [end_run] closes the run on top of the stack of
    active runs, so the run closed is the trial's, and the stack is as
    before the call, for an objective that leaves the stack of active runs
    as it found it. *)
Theorem opened_runs_are_closed self :
  (∀ study trial w o w',
     __call__ self study trial w = (o, w') →
     active_stack w' = active_stack w
     ∧ (run_store w' = run_store w ∧ o = Raise MlflowException
        ∨ ∃ w1 w2 run_id r,
            _initialize_experiment self study w = (Ok (), w1)
            ∧ mlflow.start_run (FrozenTrial.system_attrs trial !! RUN_ID_ATTRIBUTE_KEY)
                (Some (py_str (PInt (FrozenTrial.number trial)))) (_nest_trials self) w1
              = (Ok {| mlflow.info_run_id := run_id |}, w2)
            ∧ run_store w' !! run_id = Some r
            ∧ backend.run_status r
              = if o is Ok _ then RunStatus.FINISHED else RunStatus.FAILED))
  ∧ (∀ func trial w w1 w2 run_id,
       _initialize_experiment self (Trial.study trial) w = (Ok (), w1) →
       mlflow.start_run None (Some (py_str (PInt (Trial.number trial))))
         (_nest_trials self) w1
         = (Ok {| mlflow.info_run_id := run_id |}, w2) →
       match set_system_attr trial RUN_ID_ATTRIBUTE_KEY (PStr run_id) w2 with
       | (Raise e, w3) =>
           wrapper self func trial w = (Raise e, closed RunStatus.FAILED w3)
           ∧ active_stack (closed RunStatus.FAILED w3) = active_stack w
           ∧ ∃ r, run_store (closed RunStatus.FAILED w3) !! run_id = Some r
               ∧ backend.run_status r = RunStatus.FAILED
       | (Ok _, w3) =>
           let '(o, w4) := func trial w3 in
           let status := if o is Ok _ then RunStatus.FINISHED else RunStatus.FAILED in
           wrapper self func trial w = (o, closed status w4)
           ∧ (active_stack w4 = active_stack w3 →
              active_stack (closed status w4) = active_stack w
              ∧ ∀ r, run_store w4 !! run_id = Some r →
                     run_store (closed status w4) !! run_id
                     = Some (backend.set_status status r))
       end).
Proof.
  split.
  - intros study trial w o w' (_ & Hstack & [?|Hrun])%call_frame; [by auto|].
    split; [done|]. right.
    destruct Hrun as (w1 & w2 & run_id & r & ? & ? & _ & _ & ? & ?).
    by exists w1, w2, run_id, r.
  - intros func trial w w1 w2 run_id Hinit Hstart.
    rewrite wrapper_unfold, Hinit, Hstart. simpl.
    apply initialize_experiment_spec in Hinit as (_ & Hs1 & _).
    apply start_run_spec in Hstart as (Hs2 & _ & _ & _ & _ & _ & Hopen).
    simpl in Hs2, Hopen.
    destruct (set_system_attr _ _ _ w2) as [[[]|e] w3] eqn:Hattr;
      apply set_system_attr_spec in Hattr as [Htr Hattr].
    + assert (Hs3 : active_stack w3 = run_id :: active_stack w1)
        by (unfold active_stack in *; by rewrite Htr).
      destruct (func trial w3) as [[v|e] w4]; (split; [done|]);
        rewrite Hs3; intros Hs4;
        destruct (closed_active RunStatus.FINISHED w4 _ _ Hs4) as (Hc1 & _ & Hc2);
        destruct (closed_active RunStatus.FAILED w4 _ _ Hs4) as (Hc3 & _ & Hc4).
      * split; [congruence|]. intros r Hr. by rewrite Hc2, lookup_alter_eq, Hr.
      * split; [congruence|]. intros r Hr. by rewrite Hc4, lookup_alter_eq, Hr.
    + destruct Hattr as [-> ->]. split; [done|].
      destruct (closed_active RunStatus.FAILED w2 _ _ Hs2) as (Hc1 & _ & Hc2).
      split; [congruence|].
      destruct (opened_running _ _ _ _ _ Hopen) as (r & Hr & _).
      eexists. by rewrite Hc2, lookup_alter_eq, Hr.
Qed.

(** C9. The spec's end-to-end scenario: the study [s1] with direction
    minimize, the trial numbered 3 with value 4.0 and parameters
    [{"x": 1.5}], no run identifier stashed, a client that has done nothing
    yet. On any backend that refuses nothing and allows tag values of eight
    characters, [__call__] returns; the experiment [s1] exists and is
    selected; there is one run, named [3] and finished, which holds the
    metric 4.0 under the configured name, the parameter [x = 1.5], and the
    tags [number = "3"] and [direction = "MINIMIZE"]. *)
Theorem end_to_end_scenario self :
  (∀ c st, backend.rejects c st = false) →
  (8 ≤ backend.MAX_TAG_VAL_LENGTH)%nat →
  ∃ w' run_id r,
    __call__ self study_s1 trial_3 fresh_world = (Ok (), w')
    ∧ backend.active_experiment (tracking w') = Some "s1"
    ∧ "s1" ∈ backend.experiments (tracking w')
    ∧ run_store w' = {[run_id := r]}
    ∧ active_stack w' = []
    ∧ backend.run_name r = Some "3"
    ∧ backend.run_status r = RunStatus.FINISHED
    ∧ backend.run_metrics r = [(_metric_name self, four)]
    ∧ backend.run_params r = {["x" := PFloat one_and_a_half]}
    ∧ backend.run_tags r !! "number" = Some (PStr "3")
    ∧ backend.run_tags r !! "direction" = Some (PStr "MINIMIZE").
Proof.
  intros Hacc Hmax.
  destruct (_initialize_experiment self study_s1 fresh_world) as [o1 w1] eqn:Hinit.
  assert (o1 = Ok () ∧ run_store w1 = ∅ ∧ active_stack w1 = []
          ∧ backend.active_experiment (tracking w1) = Some "s1"
          ∧ "s1" ∈ backend.experiments (tracking w1)) as (-> & Hr1 & Hs1 & Ha1 & He1).
  { revert Hinit. unfold _initialize_experiment, mlflow.set_tracking_uri,
      mlflow.set_experiment, mlflow.request, modify_tracking, mbind, M_bind, mret, M_ret.
    destruct (_tracking_uri self); simpl; rewrite ?Hacc; simpl; rewrite ?Hacc;
      intros [= <- <-]; simpl; repeat split; try done; by apply elem_of_union_l,
        elem_of_singleton. }
  destruct (mlflow.start_run (FrozenTrial.system_attrs trial_3 !! RUN_ID_ATTRIBUTE_KEY)
              (Some (py_str (PInt (FrozenTrial.number trial_3)))) (_nest_trials self) w1)
    as [o2 w2] eqn:Hstart.
  set (run_id := fresh (dom (∅ : gmap string backend.Run))).
  assert (o2 = Ok {| mlflow.info_run_id := run_id |}
          ∧ run_store w2 = {[run_id := backend.new_run (Some "3") (tracking w1)]}
          ∧ backend.active_experiment (tracking w2) = Some "s1"
          ∧ "s1" ∈ backend.experiments (tracking w2)) as (-> & Hr2 & Ha2 & He2).
  { revert Hstart. unfold mlflow.start_run, mlflow.request, get_tracking, modify_tracking,
      mbind, M_bind, mret, M_ret. rewrite Hacc.
    unfold active_stack, run_store in *. rewrite Hs1. simpl.
    rewrite lookup_empty, Hr1. change (pretty 3%Z) with "3".
    intros [= <- <-]. simpl. rewrite Hr1. by repeat split. }
  destruct (shorten_long_values_returns (merged_tags self trial_3 study_s1))
    as [tags Htags]; [lia|].
  exists
    (closed RunStatus.FINISHED
       (update_run (backend.add_tags tags) run_id
          (update_run (backend.add_params (FrozenTrial.params trial_3)) run_id
             (update_run (backend.add_metric (_metric_name self) four) run_id w2)))),
    run_id,
    (backend.set_status RunStatus.FINISHED
       (backend.add_tags tags
          (backend.add_params (FrozenTrial.params trial_3)
             (backend.add_metric (_metric_name self) four
                (backend.new_run (Some "3") (tracking w1)))))).
  pose proof (start_run_spec _ _ _ _ _ _ Hstart) as (Hs2 & _). simpl in Hs2.
  split; [by apply (call_accepted self study_s1 trial_3 fresh_world w1 w2 run_id tags)|].
  unfold closed. rewrite !update_run_stack, Hs2.
  assert (Hnumber : tags !! "number" = Some (PStr "3")).
  { pose proof (final_tags_not_overridden self trial_3 study_s1 tags "number" Htags) as Hb.
    rewrite base_tags_number in Hb.
    destruct Hb as (v' & Hv' & Hleft); try done.
    - intros k. apply short_key_no_distribution. simpl. lia.
    - apply left_as_short in Hleft; [by subst|]. simpl. lia. }
  assert (Hdirection : tags !! "direction" = Some (PStr "MINIMIZE")).
  { pose proof (final_tags_not_overridden self trial_3 study_s1 tags "direction" Htags) as Hb.
    rewrite base_tags_direction in Hb.
    destruct Hb as (v' & Hv' & Hleft); try done.
    - intros k. apply short_key_no_distribution. simpl. lia.
    - apply left_as_short in Hleft; [by subst|]. simpl. lia. }
  unfold run_store in *. simpl. rewrite Hr2, !alter_singleton.
  repeat split; try done.
  - by rewrite lookup_union, Hnumber.
  - by rewrite lookup_union, Hdirection.
Qed.

(** C10. The wrapper returns what the objective returned: a value it
    returns is a value the objective returned, in a world where the run was
    open; and once the run is open and the attribute written, the wrapper
    ends as the objective does, with its value or with its exception. *)
Theorem wrapper_returns_objective_value self func trial w :
  (∀ v w', wrapper self func trial w = (Ok v, w') →
     ∃ w3 w4, func trial w3 = (Ok v, w4) ∧ w' = closed RunStatus.FINISHED w4)
  ∧ (∀ w1 w2 run_id w3 o w4,
       _initialize_experiment self (Trial.study trial) w = (Ok (), w1) →
       mlflow.start_run None (Some (py_str (PInt (Trial.number trial))))
         (_nest_trials self) w1
         = (Ok {| mlflow.info_run_id := run_id |}, w2) →
       set_system_attr trial RUN_ID_ATTRIBUTE_KEY (PStr run_id) w2 = (Ok (), w3) →
       func trial w3 = (o, w4) →
       wrapper self func trial w
       = (o, closed (if o is Ok _ then RunStatus.FINISHED else RunStatus.FAILED) w4)).
Proof.
  split.
  - intros v w'. rewrite wrapper_unfold.
    destruct (_initialize_experiment _ _ w) as [[[]|?] w1]; [|done].
    destruct (mlflow.start_run _ _ _ w1) as [[run|?] w2]; [|done].
    destruct (set_system_attr _ _ _ w2) as [[[]|?] w3]; [|done].
    destruct (func trial w3) as [[v'|?] w4] eqn:Hfunc; [|done].
    intros [= <- <-]. eauto.
  - intros w1 w2 run_id w3 o w4 Hinit Hstart Hattr Hfunc.
    rewrite wrapper_unfold, Hinit, Hstart. simpl. rewrite Hattr, Hfunc. by destruct o.
Qed.

End Claims.

(** C1 on a pruned trial, which has no value: the callback returns and the
    run holds NaN under the metric's name. *)
Lemma record_logs_value_witness :
  ∃ run_id r,
    run_store (MLflowCallback.__call__ (python := example_python) (server := accepting_backend)
                 MLflowCallback.with_defaults study_s1 trial_pruned fresh_world).2
      !! run_id = Some r
    ∧ last (backend.run_metrics r) = Some ("value", S754_nan).
Proof.
  apply (proj1 (record_logs_value (python := example_python) (server := accepting_backend)
                  MLflowCallback.with_defaults study_s1 trial_pruned fresh_world)).
  vm_compute. reflexivity.
Defined.

(** ** The claims on the example platform *)


(** C3 where a study user attribute has the key of a distribution tag: the
    study's value is the one in the dictionary. *)
Lemma tag_sources_precedence_witness :
  MLflowCallback.merged_tags (python := example_python) tagging_callback trial_3 study_tagged
    !! "x_distribution"
  = Some (PStr "from the study").
Proof.
  apply (proj1 (proj2 (proj2 (proj2 (tag_sources_precedence
           (python := example_python) (server := accepting_backend)
           tagging_callback trial_3 study_tagged "x_distribution")))));
    vm_compute; reflexivity.
Defined.

(** C4 at its failing input: the user attribute [k = 5] is an integer in
    the dictionary that reaches [mlflow.set_tags]. *)
Lemma short_values_keep_their_type_witness :
  ∃ v',
    the_tags (MLflowCallback.final_tags (python := example_python) (server := accepting_backend)
                MLflowCallback.with_defaults trial_int_attr study_s1) !! "k" = Some v'
    ∧ is_str v' = false.
Proof.
  apply (short_values_keep_their_type (python := example_python)
           (server := accepting_backend)
           MLflowCallback.with_defaults trial_int_attr study_s1 _ "k" (PInt 5)).
  - vm_compute. reflexivity.
  - vm_compute. reflexivity.
  - vm_compute. lia.
  - reflexivity.
Defined.

(** The value is the integer itself. *)
Example int_attr_reaches_set_tags :
  the_tags (MLflowCallback.final_tags (python := example_python) (server := accepting_backend)
              MLflowCallback.with_defaults trial_int_attr study_s1) !! "k"
  = Some (PInt 5).
Proof. vm_compute. reflexivity. Qed.

(** C5 as stated fails: a user attribute named [number] replaces the
    trial's number in the final dictionary. *)
Lemma number_tag_counterexample :
  ∃ tags,
    MLflowCallback.final_tags (python := example_python) (server := accepting_backend)
      MLflowCallback.with_defaults trial_renumbered study_s1 = Ok tags
    ∧ tags !! "number" = Some (PStr "seven")
    ∧ tags !! "number"
      ≠ Some (PStr (py_str (python := example_python) (PInt (FrozenTrial.number trial_renumbered)))).
Proof.
  eexists. split; [vm_compute; reflexivity|]. split; [vm_compute; reflexivity|].
  vm_compute. discriminate.
Qed.

(** C5, amended, on the trial of the scenario. *)
Lemma number_tag_unless_overridden_witness :
  the_tags (MLflowCallback.final_tags (python := example_python) (server := accepting_backend)
              MLflowCallback.with_defaults trial_3 study_s1) !! "number"
  = Some (PStr "3").
Proof.
  refine (proj2 (number_tag_unless_overridden (python := example_python)
                   (server := accepting_backend)
                   MLflowCallback.with_defaults trial_3 study_s1 _ _) _ _ _).
  - vm_compute. reflexivity.
  - vm_compute. reflexivity.
  - discriminate.
  - vm_compute. lia.
Defined.

(** C6 on a backend with a limit of 12 characters: the remark of 25
    characters reaches [mlflow.set_tags] as a text of at most 12. *)
Lemma long_values_are_shortened_witness :
  ∃ short,
    the_tags (MLflowCallback.final_tags (python := example_python) (server := narrow_backend)
                MLflowCallback.with_defaults trial_long_note study_s1) !! "note"
    = Some (PStr short)
    ∧ (String.length short ≤ 12)%nat.
Proof.
  refine (proj1 (proj1 (long_values_are_shortened (python := example_python)
                          (server := narrow_backend)
                          MLflowCallback.with_defaults trial_long_note study_s1)
                   _ "note" (PStr "a remark that is too long") _ _) _).
  - vm_compute. reflexivity.
  - vm_compute. reflexivity.
  - vm_compute. lia.
Defined.

(** What the remark becomes. *)
Example long_note_shortened :
  the_tags (MLflowCallback.final_tags (python := example_python) (server := narrow_backend)
              MLflowCallback.with_defaults trial_long_note study_s1) !! "note"
  = Some (PStr "a [...]").
Proof. vm_compute. reflexivity. Qed.

(** C7 as stated fails: a user attribute named [state] is written as the
    tag of a trial that is still running, and a user attribute named
    [direction] takes the place of the direction's name. *)
Lemma state_tag_counterexample :
  FrozenTrial.state trial_running_tagged = PTrialState TrialState.RUNNING
  ∧ TrialState.is_finished TrialState.RUNNING = false
  ∧ Study.direction study_s1 = PStudyDirection StudyDirection.MINIMIZE
  ∧ ∃ w' r,
      MLflowCallback.__call__ (python := example_python) (server := accepting_backend)
        MLflowCallback.with_defaults study_s1 trial_running_tagged fresh_world
      = (Ok (), w')
      ∧ run_store w' !! "0" = Some r
      ∧ backend.run_tags r !! "state" = Some (PStr "COMPLETE")
      ∧ backend.run_tags r !! "direction" = Some (PStr "up")
      ∧ backend.run_tags r !! "direction"
        ≠ Some (PStr (StudyDirection.name StudyDirection.MINIMIZE)).
Proof.
  split; [reflexivity|]. split; [reflexivity|]. split; [reflexivity|].
  eexists _, _. split; [vm_compute; reflexivity|].
  split; [vm_compute; reflexivity|]. split; [vm_compute; reflexivity|].
  split; [vm_compute; reflexivity|]. vm_compute. discriminate.
Qed.

(** C7, amended, on the trial of the scenario, which is complete and has
    no user attributes. *)
Lemma state_and_direction_tags_witness :
  the_tags (MLflowCallback.final_tags (python := example_python) (server := accepting_backend)
              MLflowCallback.with_defaults trial_3 study_s1) !! "state"
  = Some (PStr "COMPLETE").
Proof.
  refine (proj1 (proj2 (proj2 (proj2 (proj2 (state_and_direction_tags
            (python := example_python) (server := accepting_backend)
            trial_3 study_s1))))
          MLflowCallback.with_defaults _ _ _) _ _).
  - vm_compute. reflexivity.
  - vm_compute. lia.
  - vm_compute. reflexivity.
  - discriminate.
Defined.

(** C8 on a backend that refuses every write: [__call__] raises, and the
    run it had opened is closed as failed. *)
Lemma opened_runs_are_closed_witness :
  let result :=
    MLflowCallback.__call__ (python := example_python) (server := readonly_backend)
      MLflowCallback.with_defaults study_s1 trial_3 fresh_world in
  active_stack result.2 = active_stack fresh_world
  ∧ (run_store result.2 = run_store fresh_world ∧ result.1 = Raise MlflowException
     ∨ ∃ w1 w2 run_id r,
         MLflowCallback._initialize_experiment (server := readonly_backend)
           MLflowCallback.with_defaults study_s1 fresh_world = (Ok (), w1)
         ∧ mlflow.start_run (server := readonly_backend)
             (FrozenTrial.system_attrs trial_3 !! RUN_ID_ATTRIBUTE_KEY)
             (Some (py_str (python := example_python) (PInt (FrozenTrial.number trial_3))))
             (MLflowCallback._nest_trials MLflowCallback.with_defaults) w1
           = (Ok {| mlflow.info_run_id := run_id |}, w2)
         ∧ run_store result.2 !! run_id = Some r
         ∧ backend.run_status r
           = if result.1 is Ok _ then RunStatus.FINISHED else RunStatus.FAILED).
Proof.
  apply (proj1 (opened_runs_are_closed (python := example_python)
                  (server := readonly_backend) MLflowCallback.with_defaults)
           study_s1 trial_3 fresh_world).
  apply surjective_pairing.
Defined.

(** The run is there, failed, and the call raised. *)
Example failed_record_closes_run :
  let result :=
    MLflowCallback.__call__ (python := example_python) (server := readonly_backend)
      MLflowCallback.with_defaults study_s1 trial_3 fresh_world in
  result.1 = Raise MlflowException
  ∧ active_stack result.2 = []
  ∧ backend.run_status <$> run_store result.2 !! "0" = Some RunStatus.FAILED.
Proof. vm_compute. by repeat split. Qed.

(** An objective that raises: the wrapper raises the same exception, and
    the run it had opened is closed as failed. *)
Example failing_objective_closes_run :
  let result :=
    MLflowCallback.wrapper (python := example_python) (server := accepting_backend)
      MLflowCallback.with_defaults failing_objective live_trial world_with_trial in
  result.1 = Raise (Exception "objective failed")
  ∧ active_stack result.2 = []
  ∧ backend.run_status <$> run_store result.2 !! "0" = Some RunStatus.FAILED.
Proof. vm_compute. by repeat split. Qed.

(** Why the wrapper's part of C8 asks the objective to leave the stack of
    active runs as it found it: [end_run] closes the run on top of that
    stack, so after an objective that leaves a nested run open, it is the
    nested run [1] that [__exit__] closes, and the trial's run [0] stays
    active. *)
Example unbalanced_objective_keeps_run_active :
  let result :=
    MLflowCallback.wrapper (python := example_python) (server := accepting_backend)
      MLflowCallback.with_defaults (nesting_objective (server := accepting_backend))
      live_trial world_with_trial in
  result.1 = Ok (PFloat four)
  ∧ active_stack result.2 = ["0"]
  ∧ backend.run_status <$> run_store result.2 !! "0" = Some RunStatus.RUNNING
  ∧ backend.run_status <$> run_store result.2 !! "1" = Some RunStatus.FINISHED.
Proof. vm_compute. by repeat split. Qed.

(** C8 as stated fails for the wrapper: after an objective that opens a
    nested run and returns, or opens one and raises, the wrapper has
    returned, or raised, and the trial's run [0] is still running and still
    on the stack of active runs. *)
Lemma run_left_open_counterexample :
  (∃ w',
     MLflowCallback.wrapper (python := example_python) (server := accepting_backend)
       MLflowCallback.with_defaults (nesting_objective (server := accepting_backend))
       live_trial world_with_trial = (Ok (PFloat four), w')
     ∧ storage w' !! 0%nat
       = Some (FrozenTrial.with_system_attr RUN_ID_ATTRIBUTE_KEY (PStr "0") trial_running)
     ∧ active_stack w' = ["0"]
     ∧ backend.run_status <$> run_store w' !! "0" = Some RunStatus.RUNNING)
  ∧ (∃ w',
       MLflowCallback.wrapper (python := example_python) (server := accepting_backend)
         MLflowCallback.with_defaults
         (nesting_failing_objective (server := accepting_backend))
         live_trial world_with_trial = (Raise (Exception "objective failed"), w')
       ∧ active_stack w' = ["0"]
       ∧ backend.run_status <$> run_store w' !! "0" = Some RunStatus.RUNNING).
Proof.
  split.
  - eexists. split; [vm_compute; reflexivity|]. vm_compute. by repeat split.
  - eexists. split; [vm_compute; reflexivity|]. vm_compute. by repeat split.
Qed.

(** C9 on the example platform. *)
Lemma end_to_end_scenario_witness :
  ∃ w' run_id r,
    MLflowCallback.__call__ (python := example_python) (server := accepting_backend)
      MLflowCallback.with_defaults study_s1 trial_3 fresh_world = (Ok (), w')
    ∧ backend.active_experiment (tracking w') = Some "s1"
    ∧ "s1" ∈ backend.experiments (tracking w')
    ∧ run_store w' = {[run_id := r]}
    ∧ active_stack w' = []
    ∧ backend.run_name r = Some "3"
    ∧ backend.run_status r = RunStatus.FINISHED
    ∧ backend.run_metrics r = [("value", four)]
    ∧ backend.run_params r = {["x" := PFloat one_and_a_half]}
    ∧ backend.run_tags r !! "number" = Some (PStr "3")
    ∧ backend.run_tags r !! "direction" = Some (PStr "MINIMIZE").
Proof.
  apply (end_to_end_scenario (python := example_python) (server := accepting_backend)
           MLflowCallback.with_defaults).
  - done.
  - simpl. lia.
Defined.

(** C10 on the example objective, which returns 4.0: so does the wrapper. *)
Lemma wrapper_returns_objective_value_witness :
  ∃ w3 w4,
    objective (server := accepting_backend) live_trial w3 = (Ok (PFloat four), w4)
    ∧ world_after_objective = closed RunStatus.FINISHED w4.
Proof.
  apply (proj1 (wrapper_returns_objective_value (python := example_python)
                  (server := accepting_backend)
                  MLflowCallback.with_defaults (objective (server := accepting_backend))
                  live_trial world_with_trial)).
  vm_compute. reflexivity.
Defined.

(** * Further properties of the module *)

(** ** The loop over the tags *)

Section ShortenLoopFacts.
Context {python : Python} {server : backend.Backend}.
Import MLflowCallback.

(** An item whose text fits leaves the dictionary as it is. *)
Lemma shorten_item_short tags key v :
  (String.length (py_str v) ≤ backend.MAX_TAG_VAL_LENGTH)%nat →
  shorten_item tags (key, v) = Ok tags.
Proof.
  intros Hle. unfold shorten_item.
  by destruct (Nat.ltb_spec backend.MAX_TAG_VAL_LENGTH (String.length (py_str v)));
    [lia|].
Qed.

Lemma for_each_shorten_short items tags :
  Forall (λ item, (String.length (py_str item.2) ≤ backend.MAX_TAG_VAL_LENGTH)%nat) items →
  for_each shorten_item tags items = Ok tags.
Proof.
  induction 1 as [|[key v] items Hshort _ IH]; [done|].
  cbn [for_each]. by rewrite shorten_item_short.
Qed.

(** The loop raises only [ValueError], and only on an item whose text is
    too long, when the limit is below five. *)
Lemma for_each_shorten_raises items tags e :
  for_each shorten_item tags items = Raise e →
  e = ValueError ∧ (backend.MAX_TAG_VAL_LENGTH < 5)%nat
  ∧ ∃ item, item ∈ items
      ∧ (backend.MAX_TAG_VAL_LENGTH < String.length (py_str item.2))%nat.
Proof.
  revert tags. induction items as [|[key v] items IH]; intros tags; simpl; [done|].
  unfold shorten_item at 1.
  destruct (Nat.ltb_spec backend.MAX_TAG_VAL_LENGTH (String.length (py_str v)))
    as [Hlong|Hshort]; simpl.
  - destruct (Nat.lt_ge_cases backend.MAX_TAG_VAL_LENGTH 5) as [Hmax|Hmax].
    + rewrite shorten_raises by done. simpl. intros [= <-].
      repeat split; try done. exists (key, v). split; [apply list_elem_of_here|done].
    + destruct (shorten_returns (py_str v) _ Hmax) as (short & -> & _). simpl.
      intros (-> & ? & item & Hin & ?)%IH. repeat split; try done.
      exists item. split; [by apply list_elem_of_further|done].
  - intros (-> & ? & item & Hin & ?)%IH. repeat split; try done.
    exists item. split; [by apply list_elem_of_further|done].
Qed.

(** With a limit below five, an item whose text is too long makes the loop
    raise. *)
Lemma for_each_shorten_no_room items tags item :
  (backend.MAX_TAG_VAL_LENGTH < 5)%nat →
  item ∈ items →
  (backend.MAX_TAG_VAL_LENGTH < String.length (py_str item.2))%nat →
  for_each shorten_item tags items = Raise ValueError.
Proof.
  intros Hmax Hin Hlong. revert tags.
  induction items as [|[key v] items IH]; intros tags; simpl.
  - by apply elem_of_nil in Hin.
  - unfold shorten_item at 1.
    destruct (Nat.ltb_spec backend.MAX_TAG_VAL_LENGTH (String.length (py_str v)))
      as [Hv|Hv]; simpl.
    + by rewrite shorten_raises.
    + apply elem_of_cons in Hin as [->|Hin]; [simpl in Hlong; lia|]. by apply IH.
Qed.

(** X9. Lines 238 to 241 raise exactly when room is missing: building the
    tags raises only [ValueError], which happens exactly when the limit is
    below the five characters of the placeholder and some value's text is
    longer than the limit. *)
Theorem tags_raise_exactly_without_room self trial study :
  (∃ e, final_tags self trial study = Raise e)
  ↔ (backend.MAX_TAG_VAL_LENGTH < 5)%nat
    ∧ ∃ key v, merged_tags self trial study !! key = Some v
        ∧ (backend.MAX_TAG_VAL_LENGTH < String.length (py_str v))%nat.
Proof.
  unfold final_tags, shorten_long_values. split.
  - intros [e (_ & Hmax & [key v] & Hin%elem_of_map_to_list & Hlong)%for_each_shorten_raises].
    split; [done|]. by exists key, v.
  - intros (Hmax & key & v & Hin%elem_of_map_to_list & Hlong).
    exists ValueError. by eapply for_each_shorten_no_room.
Qed.

(** The exception is a [ValueError]. *)
Lemma tags_raise_value_error self trial study e :
  final_tags self trial study = Raise e → e = ValueError.
Proof.
  unfold final_tags, shorten_long_values. by intros (-> & _)%for_each_shorten_raises.
Qed.

(** X10. When no value's text is longer than the limit, the loop changes
    nothing: [mlflow.set_tags] receives the merged dictionary itself. *)
Theorem short_tags_pass_unchanged self trial study :
  (∀ key v, merged_tags self trial study !! key = Some v →
     (String.length (py_str v) ≤ backend.MAX_TAG_VAL_LENGTH)%nat) →
  final_tags self trial study = Ok (merged_tags self trial study).
Proof.
  intros Hshort. unfold final_tags, shorten_long_values.
  apply for_each_shorten_short, Forall_forall.
  intros [key v] Hin%elem_of_map_to_list. by apply (Hshort key).
Qed.

(** X11. The loop neither adds nor removes a tag: the dictionary that reaches
    [mlflow.set_tags] has the keys of the merged dictionary. *)
Theorem shortening_keeps_the_keys self trial study tags :
  final_tags self trial study = Ok tags →
  dom tags = dom (merged_tags self trial study).
Proof.
  intros Hfinal. apply set_eq. intros key. rewrite !elem_of_dom.
  pose proof (shorten_long_values_lookup _ _ key Hfinal) as Hloop.
  destruct (merged_tags self trial study !! key) as [v|].
  - destruct Hloop as (v' & -> & _). split; eauto.
  - rewrite Hloop. split; intros [? ?]; done.
Qed.

(** X12. Without the study-tagging flag the tags do not depend on the
    study's user attributes: two studies of the same direction give the
    same dictionary. *)
Theorem study_attrs_ignored_without_flag self trial study study' :
  _tag_study_user_attrs self = false →
  Study.direction study' = Study.direction study →
  final_tags self trial study' = final_tags self trial study.
Proof.
  intros Hflag Hdir. unfold final_tags, merged_tags, base_tags.
  by rewrite Hflag, Hdir.
Qed.

End ShortenLoopFacts.

(** ** The distribution tags *)

(** X13. Line 227 makes one tag for each distribution: as many tags as the
    trial has distributions, each under the name of a parameter followed
    by [_distribution]. *)
Theorem one_tag_per_distribution trial :
  size (MLflowCallback.distribution_tags trial)
  = size (FrozenTrial.distributions trial)
  ∧ ∀ key, is_Some (MLflowCallback.distribution_tags trial !! key) →
      ∃ param, key = param +:+ "_distribution"
        ∧ is_Some (FrozenTrial.distributions trial !! param).
Proof.
  split.
  - unfold MLflowCallback.distribution_tags.
    apply (map_fold_weak_ind (λ (r : gmap string PyVal) (m : gmap string BaseDistribution),
      size r = size m
      ∧ ∀ key, is_Some (r !! key) → ∃ param, key = param +:+ "_distribution"
                                       ∧ is_Some (m !! param))).
    + split; [done|]. intros key [v Hv]. by rewrite lookup_empty in Hv.
    + intros i x m r Hi [Hsize Hkeys]. split.
      * rewrite !map_size_insert_None; [by rewrite Hsize|done|].
        destruct (r !! (i +:+ "_distribution")) as [v|] eqn:Hv; [|done].
        destruct (Hkeys _ (mk_is_Some _ _ Hv)) as (param & ->%app_inj_suffix & [d Hd]).
        congruence.
      * intros key Hkey. destruct (decide (key = i +:+ "_distribution")) as [->|Hne].
        -- exists i. by rewrite lookup_insert_eq.
        -- rewrite lookup_insert_ne in Hkey by done.
           destruct (Hkeys key Hkey) as (param & -> & Hparam). exists param.
           split; [done|]. rewrite lookup_insert_ne; [done|]. congruence.
  - intros key [v (k & d & -> & Hk & _)%distribution_tags_lookup]. eauto.
Qed.

(** ** Selecting the experiment *)

Section ExperimentFacts.
Context {python : Python} {server : backend.Backend}.
Import MLflowCallback.

(** X1. [_initialize_experiment] sets the tracking URI only when the
    callback has one, selects the experiment named after the study,
    creating it if needed, and touches neither the runs, nor the stack of
    active runs, nor the storage; it raises nothing of its own. When the
    URI is set and the experiment is then refused, the URI stays set. *)
Theorem initialize_experiment_effects self study w o w' :
  _initialize_experiment self study w = (o, w') →
  run_store w' = run_store w ∧ active_stack w' = active_stack w
  ∧ storage w' = storage w
  ∧ (_tracking_uri self = None →
     backend.tracking_uri (tracking w') = backend.tracking_uri (tracking w))
  ∧ match o with
    | Ok _ =>
        backend.active_experiment (tracking w') = Some (Study.study_name study)
        ∧ backend.experiments (tracking w')
          = {[Study.study_name study]} ∪ backend.experiments (tracking w)
        ∧ (∀ uri, _tracking_uri self = Some uri →
             backend.tracking_uri (tracking w') = Some uri)
    | Raise e =>
        e = MlflowException
        ∧ backend.active_experiment (tracking w')
          = backend.active_experiment (tracking w)
        ∧ backend.experiments (tracking w') = backend.experiments (tracking w)
    end.
Proof.
  unfold _initialize_experiment, mlflow.set_tracking_uri, mlflow.set_experiment,
    mlflow.request, modify_tracking, mbind, M_bind, mret, M_ret.
  destruct (_tracking_uri self) as [uri|]; simpl;
    repeat (destruct (backend.rejects _ _); simpl);
    intros [= <- <-]; simpl; repeat split; try done; by intros ? [= <-].
Qed.

(** X2. Selecting the experiment twice is selecting it once: the second
    call, which the decorator scenario makes in [__call__] after the
    wrapper, leaves the world of the first. *)
Theorem initialize_experiment_twice self study w w1 w2 :
  _initialize_experiment self study w = (Ok (), w1) →
  _initialize_experiment self study w1 = (Ok (), w2) →
  w2 = w1.
Proof.
  unfold _initialize_experiment, mlflow.set_tracking_uri, mlflow.set_experiment,
    mlflow.request, modify_tracking, mbind, M_bind, mret, M_ret.
  destruct (_tracking_uri self) as [uri|]; simpl;
    repeat (destruct (backend.rejects _ _); simpl; try done);
    intros [= <-]; simpl;
    repeat (destruct (backend.rejects _ _); simpl; try done);
    intros [= <-]; do 2 f_equal; apply set_eq; intros x;
    rewrite !elem_of_union; tauto.
Qed.

End ExperimentFacts.

(** ** What the callback writes, and where *)

Section WriteFacts.
Context {python : Python} {server : backend.Backend}.
Import MLflowCallback.

(** X3. However [__call__] ends, it leaves the study's storage as it was and
    changes no run but the one it opens for the trial: the run stashed on
    the trial, or the run under the next fresh identifier. *)
Theorem record_touches_one_run self study trial w o w' :
  __call__ self study trial w = (o, w') →
  storage w' = storage w
  ∧ ∀ run_id, run_id ≠ run_of trial w → run_store w' !! run_id = run_store w !! run_id.
Proof.
  intros (Hsto & _ & [[-> _]|Hrun])%call_frame; [done|]. split; [done|].
  destruct Hrun as (w1 & w2 & new_id & r & Hinit & Hstart & _ & Hother & _).
  apply initialize_experiment_spec in Hinit as (Hruns & _).
  apply start_run_spec in Hstart as (_ & _ & _ & _ & _ & _ & Hopen). simpl in Hopen.
  intros run_id Hne.
  assert (new_id = run_of trial w) as ->.
  { unfold run_of. destruct Hopen as [? -> _ _|[->| ->] -> _]; by rewrite ?Hruns. }
  rewrite (Hother _ Hne), <- Hruns.
  destruct Hopen as [? _ _ ->|_ _ ->]; by rewrite lookup_insert_ne.
Qed.

(** X4. When [__call__] returns for a trial without stashed run, the run it
    created is named after the trial's number, belongs to the experiment
    named after the study, has the run that was active as its parent, is
    finished, and holds exactly one metric, the trial's parameters and the
    final tags. *)
Theorem record_fills_new_run self study trial w w' :
  FrozenTrial.system_attrs trial !! RUN_ID_ATTRIBUTE_KEY = None →
  __call__ self study trial w = (Ok (), w') →
  ∃ tags,
    final_tags self trial study = Ok tags
    ∧ run_store w' !! fresh (dom (run_store w))
      = Some {| backend.run_name := Some (py_str (PInt (FrozenTrial.number trial)));
                backend.run_experiment := Some (Study.study_name study);
                backend.run_parent := head (active_stack w);
                backend.run_status := RunStatus.FINISHED;
                backend.run_metrics :=
                  [(_metric_name self,
                    match FrozenTrial.value trial with Some v => v | None => S754_nan end)];
                backend.run_params := FrozenTrial.params trial;
                backend.run_tags := tags |}.
Proof.
  intros Hstash (w1 & w2 & run_id & r & tags & Hinit & Hstart & Htags & Hr & Hrun & _)
    %call_returns_run.
  exists tags. split; [done|].
  apply initialize_experiment_spec in Hinit as (Hruns & Hstack & _ & Hexp & _).
  apply start_run_spec in Hstart as (_ & _ & _ & _ & _ & _ & Hopen).
  rewrite Hstash in Hopen. simpl in Hopen.
  destruct Hopen as [? [=] _ _|_ -> Hw2].
  rewrite Hw2, lookup_insert_eq in Hr. injection Hr as <-.
  rewrite Hruns in Hrun. rewrite Hrun. f_equal.
  unfold backend.set_status, backend.add_tags, backend.add_params, backend.add_metric,
    backend.new_run. simpl. unfold active_stack in Hstack.
  by rewrite Hexp, Hstack, !(right_id_L ∅ (∪)).
Qed.

(** X5. When [__call__] returns for a trial with a stashed run, what the run
    held is kept: its name, experiment and parent, its earlier metrics, and
    its earlier parameters and tags under the keys the trial does not
    write. The trial's metric is appended, and its parameters and final
    tags are set. This is how what the decorated objective logged and what
    the callback logs end up in one run. *)
Theorem record_extends_stashed_run self study trial w w' run_id r :
  FrozenTrial.system_attrs trial !! RUN_ID_ATTRIBUTE_KEY = Some (PStr run_id) →
  run_store w !! run_id = Some r →
  __call__ self study trial w = (Ok (), w') →
  ∃ tags r',
    final_tags self trial study = Ok tags
    ∧ run_store w' !! run_id = Some r'
    ∧ backend.run_name r' = backend.run_name r
    ∧ backend.run_experiment r' = backend.run_experiment r
    ∧ backend.run_parent r' = backend.run_parent r
    ∧ backend.run_status r' = RunStatus.FINISHED
    ∧ backend.run_metrics r'
      = (backend.run_metrics r
         ++ [(_metric_name self,
              match FrozenTrial.value trial with Some v => v | None => S754_nan end)])%list
    ∧ (∀ key, backend.run_params r' !! key
              = FrozenTrial.params trial !! key ∪ backend.run_params r !! key)
    ∧ (∀ key, backend.run_tags r' !! key = tags !! key ∪ backend.run_tags r !! key).
Proof.
  intros Hstash Hr (w1 & w2 & new_id & r2 & tags & Hinit & Hstart & Htags & Hr2 & Hrun & _)
    %call_returns_run.
  apply initialize_experiment_spec in Hinit as (Hruns & _).
  apply start_run_spec in Hstart as (_ & _ & _ & _ & _ & _ & Hopen).
  rewrite Hstash in Hopen. simpl in Hopen.
  destruct Hopen as [r0 [= <-] Hr0 Hw2|[?|?] _ _]; [|done..].
  rewrite Hw2, lookup_insert_eq in Hr2. injection Hr2 as <-.
  rewrite Hruns, Hr in Hr0. injection Hr0 as <-.
  eexists tags, _. split; [done|]. split; [done|]. simpl.
  repeat split; try done; intros key; apply lookup_union.
Qed.

(** X6. [_log_params], with a run active and the call accepted, sets each of
    the trial's parameters in that run and keeps the run's other
    parameters; for a trial without parameters the world is unchanged. *)
Theorem log_params_effect trial w run_id stack r :
  active_stack w = run_id :: stack →
  run_store w !! run_id = Some r →
  backend.rejects (backend.LogParams (FrozenTrial.params trial)) (tracking w) = false →
  ∃ w' r',
    _log_params trial w = (Ok (), w')
    ∧ run_store w' !! run_id = Some r'
    ∧ (∀ key, backend.run_params r' !! key
              = FrozenTrial.params trial !! key ∪ backend.run_params r !! key)
    ∧ backend.run_metrics r' = backend.run_metrics r
    ∧ backend.run_tags r' = backend.run_tags r
    ∧ (∀ k, k ≠ run_id → run_store w' !! k = run_store w !! k)
    ∧ (FrozenTrial.params trial = ∅ → w' = w).
Proof.
  intros Hstack Hr Hacc. unfold _log_params.
  rewrite (log_params_active _ _ _ _ Hstack), Hacc.
  eexists _, _. split; [done|]. rewrite update_run_store, lookup_alter_eq, Hr. simpl.
  split; [done|]. split; [intros key; apply lookup_union|].
  split; [done|]. split; [done|]. split.
  - intros k Hk. by rewrite lookup_alter_ne.
  - intros Hempty. rewrite Hempty. destruct w as [[uri exps exp runs active] sto].
    unfold update_run, backend.set_runs. simpl. do 2 f_equal.
    apply map_eq. intros k. rewrite lookup_alter.
    destruct (decide (run_id = k)) as [<-|]; [|done].
    unfold run_store in Hr. simpl in Hr. rewrite Hr. simpl. f_equal.
    destruct r. unfold backend.add_params. simpl. f_equal. apply (left_id_L ∅ (∪)).
Qed.

(** X7. [__call__] is not atomic. When building the tags raises, after the
    metric and the parameters were accepted, the call raises that
    exception, the run keeps the metric and the parameters, and it is
    closed as failed. *)
Theorem failed_tags_leave_metric_and_params self study trial w w1 w2 run_id e :
  _initialize_experiment self study w = (Ok (), w1) →
  mlflow.start_run (FrozenTrial.system_attrs trial !! RUN_ID_ATTRIBUTE_KEY)
    (Some (py_str (PInt (FrozenTrial.number trial)))) (_nest_trials self) w1
    = (Ok {| mlflow.info_run_id := run_id |}, w2) →
  (∀ c st, backend.rejects c st = false) →
  final_tags self trial study = Raise e →
  __call__ self study trial w
  = (Raise e,
     closed RunStatus.FAILED
       (update_run (backend.add_params (FrozenTrial.params trial)) run_id
          (update_run
             (backend.add_metric (_metric_name self)
                (match FrozenTrial.value trial with Some v => v | None => S754_nan end))
             run_id w2))).
Proof.
  intros Hinit Hstart Hacc Htags.
  pose proof (start_run_spec _ _ _ _ _ _ Hstart) as (Hstack & _). simpl in Hstack.
  unfold __call__. unfold mbind at 1, M_bind. rewrite Hinit.
  unfold mbind at 1, M_bind. rewrite Hstart.
  unfold mbind at 1, M_bind, mlflow.with_run.
  unfold _log_metric, _log_params, _set_tags.
  unfold mbind at 1, M_bind. rewrite (log_metric_active _ _ _ _ _ Hstack), Hacc.
  unfold mbind at 1, M_bind.
  rewrite (log_params_active _ _ run_id (active_stack w1)), Hacc by done.
  unfold mbind at 1, M_bind, lift. rewrite Htags.
  unfold mlflow.__exit__. unfold mbind, M_bind, mret, M_ret, raise.
  by rewrite end_run_closed.
Qed.

(** X8. When the experiment cannot be selected or the run cannot be opened,
    the wrapper raises [MlflowException] without calling the objective: it
    ends the same way for every objective, and the storage, the runs and
    the stack of active runs are as they were. *)
Theorem wrapper_setup_failure self func trial w :
  (∃ e w1, _initialize_experiment self (Trial.study trial) w = (Raise e, w1))
  ∨ (∃ w1 e w2,
       _initialize_experiment self (Trial.study trial) w = (Ok (), w1)
       ∧ mlflow.start_run None (Some (py_str (PInt (Trial.number trial))))
           (_nest_trials self) w1 = (Raise e, w2)) →
  ∃ w',
    wrapper self func trial w = (Raise MlflowException, w')
    ∧ (∀ func', wrapper self func' trial w = (Raise MlflowException, w'))
    ∧ storage w' = storage w
    ∧ run_store w' = run_store w
    ∧ active_stack w' = active_stack w.
Proof.
  intros [(e & w1 & Hinit)|(w1 & e & w2 & Hinit & Hstart)].
  - exists w1. rewrite !wrapper_unfold, Hinit.
    pose proof (initialize_experiment_spec _ _ _ _ _ Hinit) as (? & ? & ? & He).
    subst e. repeat split; try done. intros func'. by rewrite wrapper_unfold, Hinit.
  - exists w2. rewrite !wrapper_unfold, Hinit, Hstart.
    pose proof (initialize_experiment_spec _ _ _ _ _ Hinit) as (? & ? & ? & _).
    pose proof (start_run_spec _ _ _ _ _ _ Hstart) as [-> ->].
    repeat split; try done. intros func'. by rewrite wrapper_unfold, Hinit, Hstart.
Qed.

(** A key is a distribution tag's only if it ends in [_distribution]. *)
Lemma drop_length_app (k s : string) : Str.drop (String.length k) (k +:+ s) = s.
Proof. induction k as [|c k IH]; simpl; [by destruct s|done]. Qed.

Lemma no_distribution_key key :
  Str.drop (String.length key - 13) key ≠ "_distribution" →
  ∀ k, key ≠ k +:+ "_distribution".
Proof.
  intros Hend k ->. apply Hend. rewrite length_app. simpl.
  replace (String.length k + 13 - 13)%nat with (String.length k) by lia.
  apply drop_length_app.
Qed.

(** X14. The tags [datetime_start] and [datetime_complete] are always in the
    final dictionary. When no user attribute has the key and the text fits
    the limit, the value is the text of the trial's timestamp, which for a
    trial that has none is the text [None]. *)
Theorem timestamp_tags self trial study tags :
  final_tags self trial study = Ok tags →
  is_Some (tags !! "datetime_start") ∧ is_Some (tags !! "datetime_complete")
  ∧ (∀ key stamp,
       key = "datetime_start" ∧ stamp = FrozenTrial.datetime_start trial
       ∨ key = "datetime_complete" ∧ stamp = FrozenTrial.datetime_complete trial →
       FrozenTrial.user_attrs trial !! key = None →
       (_tag_study_user_attrs self = true → Study.user_attrs study !! key = None) →
       (String.length (py_str stamp) ≤ backend.MAX_TAG_VAL_LENGTH)%nat →
       tags !! key = Some (PStr (py_str stamp))
       ∧ (stamp = PNone → tags !! key = Some (PStr "None"))).
Proof.
  intros Hfinal.
  assert (Hstart : base_tags trial study !! "datetime_start"
                   = Some (PStr (py_str (FrozenTrial.datetime_start trial))))
    by (unfold base_tags; repeat case_match; by simplify_map_eq).
  assert (Hcomplete : base_tags trial study !! "datetime_complete"
                      = Some (PStr (py_str (FrozenTrial.datetime_complete trial))))
    by (unfold base_tags; repeat case_match; by simplify_map_eq).
  assert (Hthere : ∀ key v, base_tags trial study !! key = Some v → is_Some (tags !! key)).
  { intros key v Hbase.
    pose proof (shorten_long_values_lookup _ _ key Hfinal) as Hloop.
    rewrite merged_tags_lookup, Hbase in Hloop.
    destruct (_ ∪ (_ ∪ _)) as [v0|] eqn:Hv.
    - destruct Hloop as (v' & Hv' & _). by eapply mk_is_Some.
    - destruct (if _tag_study_user_attrs self then _ else _),
        (distribution_tags trial !! key), (FrozenTrial.user_attrs trial !! key); done. }
  split; [by eapply Hthere|]. split; [by eapply Hthere|].
  intros key stamp Hkey Htrial Hstudy Hshort.
  assert (Hsuffix : ∀ k, key ≠ k +:+ "_distribution").
  { apply no_distribution_key. by destruct Hkey as [[-> _]|[-> _]]. }
  pose proof (final_tags_not_overridden self trial study tags key
                Hfinal Hsuffix Htrial Hstudy) as Hbase.
  assert (base_tags trial study !! key = Some (PStr (py_str stamp))) as Hkeyed
    by (destruct Hkey as [[-> ->]|[-> ->]]; done).
  rewrite Hkeyed in Hbase. destruct Hbase as (v' & Hv' & ->%left_as_short); [|done].
  split; [done|]. by intros ->.
Qed.

End WriteFacts.

Section NestingFacts.
Context {python : Python} {server : backend.Backend}.
Import MLflowCallback.

(** X15. A callback made without [nest_trials] cannot record while a run is
    active: once the experiment is selected, [__call__] raises
    [MlflowException] before anything is logged, for a trial with or
    without a stashed run, and leaves the world as the selection of the
    experiment left it. *)
Theorem record_needs_nesting self study trial w w1 :
  _nest_trials self = false →
  active_stack w ≠ [] →
  _initialize_experiment self study w = (Ok (), w1) →
  __call__ self study trial w = (Raise MlflowException, w1).
Proof.
  intros Hnest Hactive Hinit.
  pose proof (initialize_experiment_spec _ _ _ _ _ Hinit) as (_ & Hstack & _).
  unfold __call__. unfold mbind at 1 2. unfold M_bind at 1 2.
  rewrite Hinit. simpl.
  unfold mbind at 1. unfold M_bind at 1.
  destruct (mlflow.start_run _ _ _ w1) as [o w2] eqn:Hstart.
  pose proof (start_run_spec _ _ _ _ _ _ Hstart) as Hspec.
  destruct o as [run|e].
  - destruct Hspec as (_ & _ & _ & _ & _ & [Hempty|Htrue] & _).
    + rewrite Hstack in Hempty. done.
    + rewrite Hnest in Htrue. done.
  - destruct Hspec as [-> ->]. done.
Qed.

End NestingFacts.

(** ** The further properties on the example platform *)

(** X1 on a callback with a tracking URI: the URI is set and the experiment
    selected. *)
Lemma initialize_experiment_effects_witness :
  backend.tracking_uri
    (tracking (MLflowCallback._initialize_experiment (server := accepting_backend)
                 callback_with_uri study_s1 fresh_world).2)
  = Some "http://tracker:5000"
  ∧ backend.active_experiment
      (tracking (MLflowCallback._initialize_experiment (server := accepting_backend)
                   callback_with_uri study_s1 fresh_world).2)
    = Some "s1".
Proof.
  destruct (initialize_experiment_effects (server := accepting_backend)
              callback_with_uri study_s1 fresh_world (Ok ())
              (MLflowCallback._initialize_experiment (server := accepting_backend)
                 callback_with_uri study_s1 fresh_world).2
              ltac:(vm_compute; reflexivity))
    as (_ & _ & _ & _ & Hexperiment & _ & Huri).
  split; [by apply Huri|exact Hexperiment].
Defined.

(** X2 on the same callback. *)
Lemma initialize_experiment_twice_witness :
  (MLflowCallback._initialize_experiment (server := accepting_backend)
     callback_with_uri study_s1
     (MLflowCallback._initialize_experiment (server := accepting_backend)
        callback_with_uri study_s1 fresh_world).2).2
  = (MLflowCallback._initialize_experiment (server := accepting_backend)
       callback_with_uri study_s1 fresh_world).2.
Proof.
  apply (initialize_experiment_twice (server := accepting_backend)
           callback_with_uri study_s1 fresh_world);
    vm_compute; reflexivity.
Defined.

(** X3 on the decorator scenario: the callback leaves the trial's record in
    the storage, and every run but the stashed one, as they were. *)
Lemma record_touches_one_run_witness :
  storage (MLflowCallback.__call__ (python := example_python) (server := accepting_backend)
             MLflowCallback.with_defaults study_s1 trial_finished
             world_after_objective).2
  = storage world_after_objective
  ∧ ∀ run_id, run_id ≠ run_of trial_finished world_after_objective →
      run_store (MLflowCallback.__call__ (python := example_python)
                   (server := accepting_backend)
                   MLflowCallback.with_defaults study_s1 trial_finished
                   world_after_objective).2 !! run_id
      = run_store world_after_objective !! run_id.
Proof.
  apply (record_touches_one_run (python := example_python) (server := accepting_backend)
           MLflowCallback.with_defaults study_s1 trial_finished world_after_objective
           (MLflowCallback.__call__ (python := example_python) (server := accepting_backend)
              MLflowCallback.with_defaults study_s1 trial_finished
              world_after_objective).1).
  apply surjective_pairing.
Defined.

(** X4 on the pruned trial: the run is named [4], holds NaN and the
    trial's parameter. *)
Lemma record_fills_new_run_witness :
  ∃ tags,
    MLflowCallback.final_tags (python := example_python) (server := accepting_backend)
      MLflowCallback.with_defaults trial_pruned study_s1 = Ok tags
    ∧ run_store (MLflowCallback.__call__ (python := example_python)
                   (server := accepting_backend)
                   MLflowCallback.with_defaults study_s1 trial_pruned fresh_world).2
        !! fresh (dom (run_store fresh_world))
      = Some {| backend.run_name := Some "4";
                backend.run_experiment := Some "s1";
                backend.run_parent := None;
                backend.run_status := RunStatus.FINISHED;
                backend.run_metrics := [("value", S754_nan)];
                backend.run_params := {["x" := PFloat one_and_a_half]};
                backend.run_tags := tags |}.
Proof.
  apply (record_fills_new_run (python := example_python) (server := accepting_backend)
           MLflowCallback.with_defaults study_s1 trial_pruned fresh_world);
    vm_compute; reflexivity.
Defined.

(** X5 on the decorator scenario: the run holds the metric the objective
    logged and, after it, the metric of the callback. *)
Lemma record_extends_stashed_run_witness :
  ∃ r',
    run_store (MLflowCallback.__call__ (python := example_python)
                 (server := accepting_backend)
                 MLflowCallback.with_defaults study_s1 trial_finished
                 world_after_objective).2 !! "0" = Some r'
    ∧ backend.run_metrics r' = [("base of metric", one_and_a_half); ("value", four)].
Proof.
  edestruct (record_extends_stashed_run (python := example_python)
               (server := accepting_backend)
               MLflowCallback.with_defaults study_s1 trial_finished world_after_objective
               (MLflowCallback.__call__ (python := example_python)
                  (server := accepting_backend)
                  MLflowCallback.with_defaults study_s1 trial_finished
                  world_after_objective).2 "0")
    as (tags & r' & _ & Hrun & _ & _ & _ & _ & Hmetrics & _).
  - vm_compute. reflexivity.
  - vm_compute. reflexivity.
  - vm_compute. reflexivity.
  - exists r'. split; [exact Hrun|]. rewrite Hmetrics. reflexivity.
Defined.

(** X6 on a world with an active run: the parameter [x] is set in it. *)
Lemma log_params_effect_witness :
  ∃ w' r',
    MLflowCallback._log_params (server := accepting_backend) trial_3 world_with_open_run
    = (Ok (), w')
    ∧ run_store w' !! "0" = Some r'
    ∧ backend.run_params r' !! "x" = Some (PFloat one_and_a_half).
Proof.
  edestruct (log_params_effect (server := accepting_backend) trial_3 world_with_open_run
               "0" [])
    as (w' & r' & Hlog & Hrun & Hparams & _).
  - vm_compute. reflexivity.
  - vm_compute. reflexivity.
  - reflexivity.
  - exists w', r'. split; [exact Hlog|]. split; [exact Hrun|].
    rewrite Hparams. vm_compute. reflexivity.
Defined.

(** X7 on a backend whose limit is 3: the tags cannot be built, the call
    raises [ValueError], and the run, closed as failed, has the metric. *)
Lemma failed_tags_leave_metric_and_params_witness :
  (MLflowCallback.__call__ (python := example_python) (server := tiny_backend)
     MLflowCallback.with_defaults study_s1 trial_3 fresh_world).1
  = Raise ValueError
  ∧ backend.run_metrics
    <$> run_store (MLflowCallback.__call__ (python := example_python)
                     (server := tiny_backend)
                     MLflowCallback.with_defaults study_s1 trial_3 fresh_world).2 !! "0"
    = Some [("value", four)].
Proof.
  rewrite (failed_tags_leave_metric_and_params (python := example_python)
             (server := tiny_backend)
             MLflowCallback.with_defaults study_s1 trial_3 fresh_world
             (MLflowCallback._initialize_experiment (server := tiny_backend)
                MLflowCallback.with_defaults study_s1 fresh_world).2
             (mlflow.start_run (server := tiny_backend) None (Some "3") false
                (MLflowCallback._initialize_experiment (server := tiny_backend)
                   MLflowCallback.with_defaults study_s1 fresh_world).2).2
             "0" ValueError
             ltac:(vm_compute; reflexivity) ltac:(vm_compute; reflexivity)
             ltac:(reflexivity) ltac:(vm_compute; reflexivity)).
  vm_compute. split; reflexivity.
Defined.

(** X8 on a backend that cannot be reached: the wrapper raises, and the
    exception is the same whatever the objective. *)
Lemma wrapper_setup_failure_witness :
  ∃ w',
    MLflowCallback.wrapper (python := example_python) (server := unreachable_backend)
      MLflowCallback.with_defaults failing_objective live_trial world_with_trial
    = (Raise MlflowException, w')
    ∧ (∀ func',
         MLflowCallback.wrapper (python := example_python) (server := unreachable_backend)
           MLflowCallback.with_defaults func' live_trial world_with_trial
         = (Raise MlflowException, w'))
    ∧ storage w' = storage world_with_trial
    ∧ run_store w' = run_store world_with_trial
    ∧ active_stack w' = active_stack world_with_trial.
Proof.
  apply (wrapper_setup_failure (python := example_python) (server := unreachable_backend)
           MLflowCallback.with_defaults failing_objective live_trial world_with_trial).
  left. eexists _, _. vm_compute. reflexivity.
Defined.

(** X9 on the backend whose limit is 3: the state [COMPLETE] does not fit. *)
Lemma tags_raise_exactly_without_room_witness :
  ∃ e,
    MLflowCallback.final_tags (python := example_python) (server := tiny_backend)
      MLflowCallback.with_defaults trial_3 study_s1 = Raise e.
Proof.
  apply (proj2 (tags_raise_exactly_without_room (python := example_python)
                  (server := tiny_backend) MLflowCallback.with_defaults trial_3 study_s1)).
  split; [vm_compute; lia|].
  exists "state", (PStr "COMPLETE"). split; [vm_compute; reflexivity|vm_compute; lia].
Defined.

(** X10 on the trial of the scenario, whose values all fit 5000
    characters. *)
Lemma short_tags_pass_unchanged_witness :
  MLflowCallback.final_tags (python := example_python) (server := accepting_backend)
    MLflowCallback.with_defaults trial_3 study_s1
  = Ok (MLflowCallback.merged_tags (python := example_python)
          MLflowCallback.with_defaults trial_3 study_s1).
Proof.
  apply (short_tags_pass_unchanged (python := example_python) (server := accepting_backend)
           MLflowCallback.with_defaults trial_3 study_s1).
  apply (bool_decide_unpack
           (map_Forall (λ (_ : string) (v : PyVal),
              (String.length (py_str (python := example_python) v) ≤ 5000)%nat)
              (MLflowCallback.merged_tags (python := example_python)
                 MLflowCallback.with_defaults trial_3 study_s1))).
  vm_compute. exact I.
Defined.

(** X11 on the backend whose limit is 12, where values are shortened. *)
Lemma shortening_keeps_the_keys_witness :
  dom (the_tags (MLflowCallback.final_tags (python := example_python)
                   (server := narrow_backend)
                   MLflowCallback.with_defaults trial_long_note study_s1))
  = dom (MLflowCallback.merged_tags (python := example_python)
           MLflowCallback.with_defaults trial_long_note study_s1).
Proof.
  apply (shortening_keeps_the_keys (python := example_python) (server := narrow_backend)
           MLflowCallback.with_defaults trial_long_note study_s1).
  vm_compute. reflexivity.
Defined.

(** X12: the study's user attribute [owner] makes no difference to a
    callback without the flag. *)
Lemma study_attrs_ignored_without_flag_witness :
  MLflowCallback.final_tags (python := example_python) (server := accepting_backend)
    MLflowCallback.with_defaults trial_3 study_annotated
  = MLflowCallback.final_tags (python := example_python) (server := accepting_backend)
      MLflowCallback.with_defaults trial_3 study_s1.
Proof.
  apply (study_attrs_ignored_without_flag (python := example_python)
           (server := accepting_backend)
           MLflowCallback.with_defaults trial_3 study_s1 study_annotated);
    reflexivity.
Defined.

(** X14 on a trial that never started: the tag is the text [None]. *)
Lemma timestamp_tags_witness :
  the_tags (MLflowCallback.final_tags (python := example_python)
              (server := accepting_backend)
              MLflowCallback.with_defaults trial_bare study_s1) !! "datetime_complete"
  = Some (PStr "None").
Proof.
  refine (proj2 (proj2 (proj2 (timestamp_tags (python := example_python)
                                 (server := accepting_backend)
                                 MLflowCallback.with_defaults trial_bare study_s1 _ _))
                   "datetime_complete" PNone _ _ _ _) eq_refl).
  - vm_compute. reflexivity.
  - by right.
  - vm_compute. reflexivity.
  - discriminate.
  - vm_compute. lia.
Defined.

(** X15 on a world with an active run and the callback of the defaults. *)
Lemma record_needs_nesting_witness :
  MLflowCallback.__call__ (python := example_python) (server := accepting_backend)
    MLflowCallback.with_defaults study_s1 trial_3 world_with_open_run
  = (Raise MlflowException,
     (MLflowCallback._initialize_experiment (server := accepting_backend)
        MLflowCallback.with_defaults study_s1 world_with_open_run).2).
Proof.
  apply (record_needs_nesting (python := example_python) (server := accepting_backend)
           MLflowCallback.with_defaults study_s1 trial_3 world_with_open_run).
  - reflexivity.
  - vm_compute. discriminate.
  - vm_compute. reflexivity.
Defined.
